(** * du.torch_utils: a shallow embedding and its specification

    The Python module [du/torch_utils.py] is embedded function by function.

    - Python integers are [Z]; a length (the value of [len]) is a [nat]
      injected into [Z].
    - The numbers an [AverageMeter] is fed are Python's own [int] and
      [float]: unbounded integers and IEEE 754 binary64 numbers with
      Python's conversions, roundings and exceptions. Scalars of numpy or
      torch, which divide by zero without raising, are outside the model.
    - The entries of torch tensors, and the Python floats that only scale
      them ([epsilon], [100.0 / batch_size]), are modelled by exact
      rationals [Q], compared with [Qeq]: a statement about a tensor result
      is a statement of exact arithmetic, rounding is not modelled there.
    - A raised exception is the [Raise] branch of [result]; code that mutates
      an object and then raises returns the mutated object next to the outcome.
    - A [while] loop is run with fuel; [None] means that the fuel ran out, and
      the loop is proved never to reach it. *)

From Stdlib Require Import ZArith QArith Qfield Lia Lqa String.
From Stdlib Require Import Floats.SpecFloat Sorting.Sorted.
From stdpp Require Import base option list strings gmap.

Local Open Scope Z_scope.

(** ** Python exceptions and the error monad *)

Inductive exn : Set :=
| IndexError
| AttributeError
| AssertionError
| ValueError
| ZeroDivisionError
| TypeError
| RuntimeError
| OverflowError.

Inductive result (A : Type) : Type :=
| Ok (a : A)
| Raise (e : exn).
Arguments Ok {A} a.
Arguments Raise {A} e.

#[global] Instance result_ret : MRet result := fun A a => Ok a.
#[global] Instance result_bind : MBind result := fun A B f m =>
  match m with
  | Ok a => f a
  | Raise e => Raise e
  end.
#[global] Instance result_fmap : FMap result := fun A B f m =>
  match m with
  | Ok a => Ok (f a)
  | Raise e => Raise e
  end.

Definition raises {A} (r : result A) : Prop := ∃ e, r = Raise e.

(** ** The Python builtins the module uses *)

(** [l[i]] on a Python sequence: a negative index counts from the end, an
    index outside [-len(l), len(l)) raises IndexError. *)
Definition py_getitem {A} (l : list A) (i : Z) : result A :=
  let n := Z.of_nat (length l) in
  let j := if i <? 0 then i + n else i in
  if (j <? 0) || (n <=? j) then Raise IndexError
  else match l !! Z.to_nat j with
       | Some x => Ok x
       | None => Raise IndexError
       end.

(** [sum(xs)]: a left-to-right accumulation that starts from 0. *)
Definition py_sum (xs : list Z) : Z := fold_left Z.add xs 0.

(** [max(xs)] on a sequence of integers: ValueError on an empty one. *)
Definition py_max (xs : list Z) : result Z :=
  match xs with
  | [] => Raise ValueError
  | x :: xs' => Ok (fold_left Z.max xs' x)
  end.

(** [assert c]. *)
Definition py_assert (c : bool) : result unit :=
  if c then Ok tt else Raise AssertionError.

(** [l[:k]]: a negative [k] counts from the end, out-of-range bounds are
    clipped. *)
Definition py_slice_to {A} (l : list A) (k : Z) : list A :=
  let n := Z.of_nat (length l) in
  let j := if k <? 0 then Z.max 0 (k + n) else k in
  take (Z.to_nat j) l.

(** ** Indexed datasets

    An object with [__len__] and [__getitem__]; what [__getitem__] does with
    an index outside [0, len) is the object's own business. *)

Record Dataset (A : Type) : Type := mkDataset {
  ds_len : nat;
  ds_getitem : Z → result A
}.
Arguments mkDataset {A} _ _.
Arguments ds_len {A} _.
Arguments ds_getitem {A} _ _.

Definition len {A} (d : Dataset A) : Z := Z.of_nat (ds_len d).

(** A Python sequence used as a dataset. *)
Definition list_dataset {A} (l : list A) : Dataset A :=
  mkDataset (length l) (py_getitem l).

(** A dataset that raises IndexError on every index [>= len]. *)
Definition bounds_checked {A} (d : Dataset A) : Prop :=
  ∀ j, len d <= j → ds_getitem d j = Raise IndexError.

(** ** class ConcatDataset *)

Module ConcatDataset.
Section Defs.
Context {A : Type}.

(** The instance holds the one attribute [self.datasets]. *)
Definition t : Type := list (Dataset A).

Definition __init__ (datasets : list (Dataset A)) : t := datasets.

(** [sum(map(len, self.datasets))] *)
Definition __len__ (self : t) : Z := py_sum (map len self).

(** The [while] loop of [__getitem__], from the state [(idx, dataset_idx)];
    the result is the state in which the loop exits. *)
Fixpoint getitem_loop (fuel : nat) (self : t) (idx dataset_idx : Z)
  : option (result (Z * Z)) :=
  match fuel with
  | O => None
  | S fuel' =>
      match py_getitem self dataset_idx with
      | Raise e => Some (Raise e)
      | Ok d =>
          if (len d <=? idx) && (dataset_idx <? Z.of_nat (length self) - 1)
          then getitem_loop fuel' self (idx - len d) (dataset_idx + 1)
          else Some (Ok (idx, dataset_idx))
      end
  end.

Definition __getitem__ (self : t) (idx : Z) : option (result A) :=
  match getitem_loop (S (length self)) self idx 0 with
  | None => None
  | Some (Raise e) => Some (Raise e)
  | Some (Ok (idx', dataset_idx)) =>
      Some (d ← py_getitem self dataset_idx; ds_getitem d idx')
  end.

(** The cumulative length of the first [i] datasets: the index at which
    dataset [i] starts. *)
Definition offset (self : t) (i : nat) : Z := py_sum (map len (take i self)).
End Defs.
End ConcatDataset.

(** Three Python lists of integers used as datasets, the second one empty. *)
Definition example_datasets : list (Dataset Z) :=
  [list_dataset [10; 20]; list_dataset []; list_dataset [30]].

(** ** class AugmentedDataset *)

(** The Python values that flow through the dataset wrappers: opaque leaves
    (an image, a label) and tuples of values. *)
#[warnings="-register-all"]
Inductive pyval (V : Type) : Type :=
| PyLeaf (v : V)
| PyTuple (items : list (pyval V)).
Arguments PyLeaf {V} v.
Arguments PyTuple {V} items.

(** What [+] does is decided by the left operand. A leaf brings its own
    [__add__]: [leaf_add_tuple v ys] is the outcome of [v + ys] for a leaf [v]
    and the tuple [ys], a TypeError when the leaf has no [__add__] or its
    [__add__] does not take a tuple (a tuple has no [__radd__] to fall back
    on). *)
Class PyAdd (V : Type) : Type :=
  leaf_add_tuple : V → list (pyval V) → result (pyval V).

(** A Python int does not add to a tuple. *)
#[global] Instance int_add : PyAdd Z := λ _ _, Raise TypeError.

(** [x + ys] for a tuple [ys]: concatenation when [x] is a tuple, the
    leaf's own [__add__] otherwise. *)
Definition tuple_add `{PyAdd V} (x : pyval V) (ys : list (pyval V))
  : result (pyval V) :=
  match x with
  | PyTuple xs => Ok (PyTuple (xs ++ ys))
  | PyLeaf v => leaf_add_tuple v ys
  end.

Module AugmentedDataset.
Section Defs.
Context `{PyAdd V}.

(** The instance is its attribute dictionary. Both attributes the class
    mentions hold an indexable object. *)
Abbreviation t := (gmap string (Dataset (pyval V))).

(** [self.name]: AttributeError when the attribute was never assigned. *)
Definition getattr (self : t) (name : string) : result (Dataset (pyval V)) :=
  match self !! name with
  | Some v => Ok v
  | None => Raise AttributeError
  end.

(** The three statements of [__init__] on a fresh instance: the assertion,
    the assignment of [self.dataset], and the bare expression
    [self.augmented_data], which reads the attribute and assigns nothing. *)
Definition __init__ (dataset augmented_data : Dataset (pyval V)) : result t :=
  let self : t := ∅ in
  _ ← py_assert (bool_decide (len dataset = len augmented_data));
  let self := <["dataset" := dataset]> self in
  _ ← getattr self "augmented_data";
  Ok self.

Definition __len__ (self : t) : result Z :=
  d ← getattr self "dataset";
  Ok (len d).

Definition __getitem__ (self : t) (idx : Z) : result (pyval V) :=
  d ← getattr self "dataset";
  x ← ds_getitem d idx;
  a ← getattr self "augmented_data";
  y ← ds_getitem a idx;
  tuple_add x [y].
End Defs.
End AugmentedDataset.

(** A one-item dataset [(1, 2)] and the auxiliary sequence [[7]]. *)
Definition example_pairs : Dataset (pyval Z) :=
  list_dataset [PyTuple [PyLeaf 1; PyLeaf 2]].
Definition example_aux : Dataset (pyval Z) := list_dataset [PyLeaf 7].
Definition example_aux_long : Dataset (pyval Z) :=
  list_dataset [PyLeaf 7; PyLeaf 8].

(** ** Python numbers

    [int] and [float] with the arithmetic of CPython. Two ints add and
    multiply exactly. An operation that meets a float converts an int
    operand to the nearest float first, OverflowError when the int is too
    large; float addition and multiplication are IEEE operations and raise
    nothing; a division by a zero raises ZeroDivisionError; the true
    division of two ints is their quotient rounded once to the nearest
    float, OverflowError when it is too large. *)

Inductive pynum : Type :=
| PyInt (z : Z)
| PyFloat (x : spec_float).

Definition float_of_int (z : Z) : result spec_float :=
  match binary_normalize 53 1024 z 0 false with
  | S754_infinity _ => Raise OverflowError
  | x => Ok x
  end.

Definition py_float (a : pynum) : result spec_float :=
  match a with
  | PyInt z => float_of_int z
  | PyFloat x => Ok x
  end.

Definition py_num_mul (a b : pynum) : result pynum :=
  match a, b with
  | PyInt x, PyInt y => Ok (PyInt (x * y))
  | _, _ => x ← py_float a; y ← py_float b; Ok (PyFloat (SFmul 53 1024 x y))
  end.

Definition py_num_add (a b : pynum) : result pynum :=
  match a, b with
  | PyInt x, PyInt y => Ok (PyInt (x + y))
  | _, _ => x ← py_float a; y ← py_float b; Ok (PyFloat (SFadd 53 1024 x y))
  end.

(** [a / b] on two ints: the zero quotient takes the sign of the division,
    as in CPython ([0 / -5] is [-0.0]). *)
Definition int_truediv (a b : Z) : result spec_float :=
  if b =? 0 then Raise ZeroDivisionError
  else if a =? 0 then Ok (S754_zero (b <? 0))
  else
    let '(mz, ez, lz) := SFdiv_core_binary 53 1024 (Z.abs a) 0 (Z.abs b) 0 in
    match binary_round_aux 53 1024 (xorb (a <? 0) (b <? 0)) mz ez lz with
    | S754_infinity _ => Raise OverflowError
    | x => Ok x
    end.

Definition float_is_zero (x : spec_float) : bool :=
  match x with
  | S754_zero _ => true
  | _ => false
  end.

Definition py_num_truediv (a b : pynum) : result pynum :=
  match a, b with
  | PyInt x, PyInt y => PyFloat <$> int_truediv x y
  | _, _ =>
      x ← py_float a; y ← py_float b;
      if float_is_zero y then Raise ZeroDivisionError
      else Ok (PyFloat (SFdiv 53 1024 x y))
  end.

(** [a == 0] *)
Definition py_num_is_zero (a : pynum) : bool :=
  match a with
  | PyInt z => z =? 0
  | PyFloat x => float_is_zero x
  end.

(** The rational a finite float stands for. *)
Definition float_value (x : spec_float) : option Q :=
  match x with
  | S754_zero _ => Some 0%Q
  | S754_finite s m e =>
      let n := if s then Z.neg m else Z.pos m in
      Some (if 0 <=? e then inject_Z (n * 2 ^ e)
            else Qmake n (Z.to_pos (2 ^ (- e))))
  | _ => None
  end.

(** ** class AverageMeter *)

Module AverageMeter.

Record t : Type := mk { val : pynum; avg : pynum; sum : pynum; count : pynum }.

Definition reset (self : t) : t :=
  {| val := PyInt 0; avg := PyInt 0; sum := PyInt 0; count := PyInt 0 |}.

(** [__init__] calls [reset] on the fresh instance, which has no attribute
    yet; [reset] reads none of them. *)
Definition __init__ : t :=
  reset {| val := PyInt 0; avg := PyInt 0; sum := PyInt 0; count := PyInt 0 |}.

(** [update] runs its four assignments in order; the first operation that
    raises ends the call, and the instance keeps the assignments made
    before. The instance after the call is returned next to the outcome. *)
Definition update (self : t) (v n : pynum) : t * result unit :=
  let self := {| val := v; avg := avg self; sum := sum self;
                 count := count self |} in
  match (p ← py_num_mul v n; py_num_add (sum self) p) with
  | Raise e => (self, Raise e)
  | Ok s =>
      let self := {| val := val self; avg := avg self; sum := s;
                     count := count self |} in
      match py_num_add (count self) n with
      | Raise e => (self, Raise e)
      | Ok c =>
          let self := {| val := val self; avg := avg self; sum := sum self;
                         count := c |} in
          match py_num_truediv (sum self) (count self) with
          | Raise e => (self, Raise e)
          | Ok a => ({| val := val self; avg := a; sum := sum self;
                        count := count self |}, Ok tt)
          end
      end
  end.

(** [update(v, n)] called once for each pair of a list, in order; the first
    call that raises ends the sequence. *)
Fixpoint updates (self : t) (us : list (pynum * pynum)) : t * result unit :=
  match us with
  | [] => (self, Ok tt)
  | (v, n) :: us' =>
      match update self v n with
      | (self', Ok _) => updates self' us'
      | (self', Raise e) => (self', Raise e)
      end
  end.

(** Updates whose values and weights are ints, and their exact weighted sum
    and total weight. *)
Definition int_updates (us : list (Z * Z)) : list (pynum * pynum) :=
  map (λ u, (PyInt u.1, PyInt u.2)) us.
Definition weighted_sum (us : list (Z * Z)) : Z :=
  foldr (λ u acc, u.1 * u.2 + acc) 0 us.
Definition total_weight (us : list (Z * Z)) : Z :=
  foldr (λ u acc, u.2 + acc) 0 us.

End AverageMeter.

(** The update sequence (2, 1), (4, 1), (6, 2); the float 0.1 and the
    sequence (0.1, 1), (0.1, 1), (0.1, 1); an int too large for a float. *)
Definition example_updates : list (Z * Z) := [(2, 1); (4, 1); (6, 2)].
Definition float_0_1 : spec_float := S754_finite false 7205759403792794 (-56).
Definition example_float_updates : list (pynum * pynum) :=
  [(PyFloat float_0_1, PyInt 1); (PyFloat float_0_1, PyInt 1);
   (PyFloat float_0_1, PyInt 1)].
Definition example_huge_updates : list (pynum * pynum) :=
  [(PyInt (10 ^ 400), PyInt 1)].

(** ** Tensors

    A 2-D float tensor of shape N x C is the list of its N rows together
    with C, which a tensor knows even when it has no row. *)

Record Matrix : Type := mkMatrix {
  ncols : nat;
  rows : list (list Q)
}.

Definition wf_matrix (m : Matrix) : Prop :=
  Forall (λ r, length r = ncols m) (rows m).

(** [x / y] for a Python float [x] and a number [y], in exact arithmetic:
    ZeroDivisionError on a zero divisor. *)
Definition py_div (x y : Q) : result Q :=
  if Qeq_bool y 0 then Raise ZeroDivisionError else Ok (x / y)%Q.

(** ** accuracy *)

(** What [torch.topk] with [largest=True, sorted=True] promises of the [k]
    indices it returns for one row: they are [k] different positions of the
    row, their scores come from the largest down, and no score left out is
    larger than a score taken. Which of several equal scores is taken, and
    in which order equal scores come, is left open. *)
Definition is_topk (row : list Q) (k : nat) (idx : list nat) : Prop :=
  length idx = k ∧ NoDup idx ∧ Forall (λ a, (a < length row)%nat) idx ∧
  (∀ (i j a b : nat) x y, (i ≤ j)%nat →
     idx !! i = Some a → idx !! j = Some b →
     row !! a = Some x → row !! b = Some y → (y <= x)%Q) ∧
  (∀ (a b : nat) x y, a ∈ idx → b ∉ idx →
     row !! a = Some x → row !! b = Some y → (y <= x)%Q).

(** [torch.topk] on one row, indices only, as an interface. *)
Class TopK : Type := topk_row : list Q → nat → list nat.

Definition topk_contract `{TopK} : Prop :=
  ∀ row k, (k ≤ length row)%nat → is_topk row k (topk_row row k).

(** One implementation: the indexed scores are sorted by a stable insertion
    sort, so of two equal scores the one of lower index comes first. *)
Fixpoint insert_desc (x : nat * Q) (l : list (nat * Q)) : list (nat * Q) :=
  match l with
  | [] => [x]
  | y :: l' => if Qle_bool y.2 x.2 then x :: l else y :: insert_desc x l'
  end.

Definition sort_desc (l : list (nat * Q)) : list (nat * Q) :=
  foldr insert_desc [] l.

Definition topk_row_stable (row : list Q) (k : nat) : list nat :=
  (take k (sort_desc (zip (seq 0 (length row)) row))).*1.

#[global] Instance StableTopK : TopK := topk_row_stable.

(** [output.topk(k, 1, True, True)], indices only: RuntimeError when [k] is
    not in [0, C]. *)
Definition torch_topk `{TopK} (output : Matrix) (k : Z)
  : result (list (list nat)) :=
  if (k <? 0) || (Z.of_nat (ncols output) <? k) then Raise RuntimeError
  else Ok (map (λ row, topk_row row (Z.to_nat k)) (rows output)).

(** [x.t()] of a tensor with [n] columns given by its rows. *)
Definition transpose {A} (default : A) (n : nat) (xs : list (list A))
  : list (list A) :=
  map (λ j, map (λ r, nth j r default) xs) (seq 0 n).

(** [target.view(1, -1).expand_as(pred)] for [pred] with [n] columns: the
    row is kept when it has [n] entries, a row of one entry is repeated,
    any other size is a RuntimeError. Every row of the result is this row. *)
Definition expand_row (target : list Z) (n : nat) : result (list Z) :=
  if decide (length target = n) then Ok target
  else match target with
       | [x] => Ok (replicate n x)
       | _ => Raise RuntimeError
       end.

(** [x.view(-1)] for a slice [x = correct[:k]] whose rows have [n] entries.
    [pred.t()] is a view of the predictions with the strides [(1, maxk)],
    and [eq] gives its result the layout of its first operand, so the rows
    of [correct] do not lie one after the other in memory. [view] does not
    copy: the slice can be viewed as one dimension when it has at most one
    row or its rows have at most one entry, and otherwise torch raises
    RuntimeError (view size is not compatible with input tensor's size and
    stride). *)
Definition view_flat {A} (x : list (list A)) (n : nat) : result (list A) :=
  if decide (2 ≤ length x ∧ 2 ≤ n)%nat then Raise RuntimeError
  else Ok (concat x).

(** [bs.float().sum()] for a tensor of booleans, as a count. *)
Definition count_true (bs : list bool) : nat := length (filter Is_true bs).

(** The results are one-element tensors; each is modelled by its element. *)
Definition accuracy `{TopK} (output : Matrix) (target : list Z)
    (topk : list Z) : result (list Q) :=
  maxk ← py_max topk;
  let batch_size := Z.of_nat (length target) in
  pred ← torch_topk output maxk;
  let pred := transpose 0%nat (Z.to_nat maxk) pred in
  target' ← expand_row target (length (rows output));
  let correct :=
    map (λ prow, zip_with (λ p t, Z.of_nat p =? t) prow target') pred in
  mapM (λ k,
    flat ← view_flat (py_slice_to correct k) (length (rows output));
    let correct_k := inject_Z (Z.of_nat (count_true flat)) in
    scale ← py_div 100 (inject_Z batch_size);
    Ok (correct_k * scale)%Q) topk.

(** The label of a row is its single highest-scoring class. *)
Definition strict_top1 (row : list Q) (label : Z) : Prop :=
  ∃ l s, label = Z.of_nat l ∧ row !! l = Some s ∧
    ∀ j s', row !! j = Some s' → j ≠ l → (s' < s)%Q.

(** The batch of the specification, [[0.1, 0.9], [0.8, 0.2]]; a batch in
    which the labels 1, 0, 0 are the single highest-scoring classes; a batch
    of three classes with equal scores in its second row. *)
Definition example_scores : Matrix :=
  mkMatrix 2 [[1 # 10; 9 # 10]; [8 # 10; 2 # 10]]%Q.
Definition example_scores_top1 : Matrix :=
  mkMatrix 2 [[1 # 10; 9 # 10]; [8 # 10; 2 # 10]; [1; 0]]%Q.
Definition example_scores3 : Matrix :=
  mkMatrix 3 [[1 # 10; 9 # 10; 0]; [1 # 2; 1 # 2; 1 # 2]; [3; 2; 1]]%Q.

(** ** label_smoothing *)

(** The tensors [label_smoothing] is called on: a 1-D int64 tensor of
    class indices, or a float tensor of one distribution (1-D) or of one
    distribution per row (2-D). *)
Inductive FloatTensor : Type :=
| Float1 (xs : list Q)
| Float2 (m : Matrix).

Inductive Tensor : Type :=
| Int64_1 (labels : list Z)
| Floats (t : FloatTensor).

(** [t.shape[-1]] *)
Definition shape_last (t : FloatTensor) : Z :=
  match t with
  | Float1 xs => Z.of_nat (length xs)
  | Float2 m => Z.of_nat (ncols m)
  end.

(** An elementwise operation, and an elementwise operation between two
    tensors of one shape. *)
Definition tmap (f : Q → Q) (t : FloatTensor) : FloatTensor :=
  match t with
  | Float1 xs => Float1 (map f xs)
  | Float2 m => Float2 (mkMatrix (ncols m) (map (map f) (rows m)))
  end.

Definition tzip (f : Q → Q → Q) (t u : FloatTensor) : result FloatTensor :=
  match t, u with
  | Float1 xs, Float1 ys =>
      if decide (length xs = length ys) then Ok (Float1 (zip_with f xs ys))
      else Raise RuntimeError
  | Float2 m, Float2 m' =>
      if decide (ncols m = ncols m' ∧ length (rows m) = length (rows m'))
      then Ok (Float2 (mkMatrix (ncols m)
                         (zip_with (zip_with f) (rows m) (rows m'))))
      else Raise RuntimeError
  | _, _ => Raise RuntimeError
  end.

(** [F.one_hot(labels, num_classes).float()] on a 1-D tensor: an empty
    tensor needs a positive [num_classes]; a negative label is an error; -1
    asks for one class more than the largest label, any other value must
    exceed the largest label. *)
Definition one_hot_row (c : nat) (label : Z) : list Q :=
  map (λ j, if Z.of_nat j =? label then 1%Q else 0%Q) (seq 0 c).

Definition one_hot (labels : list Z) (num_classes : Z) : result Matrix :=
  match labels with
  | [] =>
      if num_classes <=? 0 then Raise RuntimeError
      else Ok (mkMatrix (Z.to_nat num_classes) [])
  | x :: xs =>
      if fold_left Z.min xs x <? 0 then Raise RuntimeError
      else
        let largest := fold_left Z.max xs x in
        if num_classes =? -1
        then Ok (mkMatrix (Z.to_nat (largest + 1))
                   (map (one_hot_row (Z.to_nat (largest + 1))) labels))
        else if largest <? num_classes
        then Ok (mkMatrix (Z.to_nat num_classes)
                   (map (one_hot_row (Z.to_nat num_classes)) labels))
        else Raise RuntimeError
  end.

(** The first statement of [label_smoothing]: the test
    [target.ndim == 1 and target.dtype == torch.int64] holds for the tensors
    of class indices and for no float tensor. *)
Definition float_target (target : Tensor) (num_classes : Z)
  : result FloatTensor :=
  match target with
  | Int64_1 labels => m ← one_hot labels num_classes; Ok (Float2 m)
  | Floats t => Ok t
  end.

Definition label_smoothing (target : Tensor) (epsilon : Q) (num_classes : Z)
  : result FloatTensor :=
  target ← float_target target num_classes;
  let num_classes := shape_last target in
  uniform_weight ← py_div epsilon (inject_Z (num_classes - 1));
  let target_scaling := (1 - epsilon - uniform_weight)%Q in
  let uniform := tmap (λ o, (o * uniform_weight)%Q) (tmap (λ _, 1%Q) target) in
  tzip Qplus (tmap (λ x, (x * target_scaling)%Q) target) uniform.

(** The distributions a float tensor holds, the sum of one, and what the
    claims about them need: rows of the declared width, each summing to 1. *)
Definition dists (t : FloatTensor) : list (list Q) :=
  match t with
  | Float1 xs => [xs]
  | Float2 m => rows m
  end.

Definition Qsum (xs : list Q) : Q := foldr Qplus 0%Q xs.

Definition wf_tensor (t : FloatTensor) : Prop :=
  Forall (λ r, Z.of_nat (length r) = shape_last t) (dists t).

Definition sums_to_one (t : FloatTensor) : Prop :=
  Forall (λ r, (Qsum r == 1)%Q) (dists t).

Definition tensor_equiv (t u : FloatTensor) : Prop :=
  shape_last t = shape_last u ∧ Forall2 (Forall2 Qeq) (dists t) (dists u).

Definition valid_target (target : Tensor) : Prop :=
  match target with
  | Int64_1 _ => True
  | Floats t => wf_tensor t ∧ sums_to_one t
  end.

Definition example_soft : Tensor :=
  Floats (Float2 (mkMatrix 3 [[1 # 2; 1 # 4; 1 # 4]; [0; 1; 0]]%Q)).

(** ** cross_entropy_loss *)

(** The tensor operations [cross_entropy_loss] calls, as an interface:
    [F.log_softmax(x, dim)], [x * y], [torch.sum(x, axis)], [-x] and
    [x.mean()] on float tensors. The first three check shapes and
    dimensions and may raise. *)
Class Torch : Type := {
  tensor : Type;
  F_log_softmax : tensor → Z → result tensor;
  torch_mul : tensor → tensor → result tensor;
  torch_sum : tensor → Z → result tensor;
  torch_neg : tensor → tensor;
  torch_mean : tensor → tensor
}.

(** [-torch.sum(probs * F.log_softmax(logits, dim=axis), axis=axis)] *)
Definition loss_terms `{Torch} (logits probs : tensor) (axis : Z)
  : result tensor :=
  lsm ← F_log_softmax logits axis;
  prod ← torch_mul probs lsm;
  s ← torch_sum prod axis;
  Ok (torch_neg s).

Definition cross_entropy_loss `{Torch} (logits probs : tensor) (axis : Z)
    (reduction : string) : result tensor :=
  tmp ← loss_terms logits probs axis;
  if String.eqb reduction "mean" then Ok (torch_mean tmp)
  else Raise ValueError.

(** The tensor operations run on shapes alone, which is what decides
    whether they raise. A dimension [dim] of a tensor with [ndim] dimensions
    must lie in [-ndim, ndim) (in [-1, 0] for a scalar), IndexError
    otherwise; two shapes multiply when, aligned at the right, their sizes
    are equal or one of them is 1, RuntimeError otherwise. *)
Definition wrap_dim (ndim : nat) (dim : Z) : result nat :=
  let n := Z.max 1 (Z.of_nat ndim) in
  if (dim <? - n) || (n <=? dim) then Raise IndexError
  else Ok (Z.to_nat (if dim <? 0 then dim + n else dim)).

Fixpoint broadcast_rev (a b : list nat) : result (list nat) :=
  match a, b with
  | [], _ => Ok b
  | _, [] => Ok a
  | x :: a', y :: b' =>
      rest ← broadcast_rev a' b';
      if decide (x = y) then Ok (x :: rest)
      else if decide (x = 1%nat) then Ok (y :: rest)
      else if decide (y = 1%nat) then Ok (x :: rest)
      else Raise RuntimeError
  end.

Definition broadcast (a b : list nat) : result (list nat) :=
  reverse <$> broadcast_rev (reverse a) (reverse b).

#[global] Instance ShapeTorch : Torch := {|
  tensor := list nat;
  F_log_softmax s dim := _ ← wrap_dim (length s) dim; Ok s;
  torch_mul := broadcast;
  torch_sum s dim := d ← wrap_dim (length s) dim; Ok (delete d s);
  torch_neg s := s;
  torch_mean _ := []
|}.

(** ** The rest of the module *)

(** A ConcatDataset is a dataset in its turn, with its own [__len__] and
    [__getitem__]. The loop of [__getitem__] never runs out of fuel, so the
    default is not reached. *)
Definition concat_dataset {A} (datasets : list (Dataset A)) : Dataset A :=
  mkDataset (Z.to_nat (ConcatDataset.__len__ datasets))
    (λ idx, default (Raise RuntimeError)
              (ConcatDataset.__getitem__ datasets idx)).

(** The number of examples whose label is among the first [k] of the
    [maxk] predictions of their row: what [accuracy] counts for [k]. *)
Definition topk_hits `{TopK} (maxk k : nat) (output : Matrix)
    (target : list Z) : nat :=
  length (filter (λ rt, rt.2 ∈ Z.of_nat <$> take k (topk_row rt.1 maxk))
            (zip (rows output) target)).

(** Tensors whose entries all lie in [0, 1]; for a target, the tensors of
    class indices count as such (their one-hot encoding has entries 0
    and 1). *)
Definition unit_entries (t : FloatTensor) : Prop :=
  Forall (Forall (λ x, (0 <= x <= 1)%Q)) (dists t).

Definition unit_target (target : Tensor) : Prop :=
  match target with
  | Int64_1 _ => True
  | Floats t => unit_entries t
  end.

(** ** adjust_learning_rate *)

(** An optimizer: its parameter groups, each a dictionary from option
    names to values, and whatever else it holds. *)
Record Optimizer (V S : Type) : Type := mkOptimizer {
  param_groups : list (gmap string V);
  optimizer_state : S
}.
Arguments mkOptimizer {V S} _ _.
Arguments param_groups {V S} _.
Arguments optimizer_state {V S} _.

(** The loop assigns [param_group['lr'] = lr] in every group, in place. *)
Definition adjust_learning_rate {V S} (optimizer : Optimizer V S) (lr : V)
  : Optimizer V S :=
  mkOptimizer ((λ param_group, <["lr" := lr]> param_group)
                 <$> param_groups optimizer)
    (optimizer_state optimizer).

(** * Specification *)

(** ** Builtins *)

Lemma fold_left_add_acc (xs : list Z) (a : Z) :
  fold_left Z.add xs a = a + fold_left Z.add xs 0.
Proof.
  revert a. induction xs as [|x xs IH]; intros a; simpl; [lia|].
  rewrite (IH (a + x)), (IH (0 + x)). lia.
Qed.

Lemma py_sum_nil : py_sum [] = 0.
Proof. reflexivity. Qed.

Lemma py_sum_cons (x : Z) (xs : list Z) : py_sum (x :: xs) = x + py_sum xs.
Proof. unfold py_sum. simpl. apply fold_left_add_acc. Qed.

Lemma py_sum_app (xs ys : list Z) : py_sum (xs ++ ys) = py_sum xs + py_sum ys.
Proof.
  induction xs as [|x xs IH]; simpl; [by rewrite py_sum_nil|].
  rewrite !py_sum_cons, IH. lia.
Qed.

Lemma py_sum_nonneg (xs : list Z) : Forall (λ x, 0 <= x) xs → 0 <= py_sum xs.
Proof.
  induction 1 as [|x xs Hx _ IH]; [by rewrite py_sum_nil|].
  rewrite py_sum_cons. lia.
Qed.

Lemma py_getitem_lookup {A} (l : list A) (i : nat) (x : A) :
  l !! i = Some x → py_getitem l (Z.of_nat i) = Ok x.
Proof.
  intros Hi. pose proof (lookup_lt_Some _ _ _ Hi) as Hlt.
  unfold py_getitem.
  destruct (Z.ltb_spec (Z.of_nat i) 0) as [?|_]; [lia|].
  destruct (Z.ltb_spec (Z.of_nat i) 0) as [?|_]; [lia|].
  destruct (Z.leb_spec (Z.of_nat (length l)) (Z.of_nat i)) as [?|_]; [lia|].
  simpl. by rewrite Nat2Z.id, Hi.
Qed.

Lemma py_getitem_ge {A} (l : list A) (i : Z) :
  Z.of_nat (length l) <= i → py_getitem l i = Raise IndexError.
Proof.
  intros Hi. unfold py_getitem.
  destruct (Z.ltb_spec i 0) as [?|_]; [lia|].
  destruct (Z.ltb_spec i 0) as [?|_]; [lia|].
  destruct (Z.leb_spec (Z.of_nat (length l)) i) as [_|?]; [done|lia].
Qed.

Lemma py_getitem_neg {A} (l : list A) (i : Z) :
  - Z.of_nat (length l) <= i < 0 →
  py_getitem l i = py_getitem l (i + Z.of_nat (length l)).
Proof.
  intros Hi. unfold py_getitem.
  destruct (Z.ltb_spec i 0) as [_|?]; [|lia].
  destruct (Z.ltb_spec (i + Z.of_nat (length l)) 0) as [?|_]; [lia|].
  destruct (Z.ltb_spec (i + Z.of_nat (length l)) 0) as [?|_]; [lia|].
  done.
Qed.

Lemma list_dataset_bounds_checked {A} (l : list A) :
  bounds_checked (list_dataset l).
Proof. intros j Hj. apply py_getitem_ge. exact Hj. Qed.

(** ** ConcatDataset *)

Section ConcatDatasetFacts.
Context {A : Type}.
Implicit Types (self : list (Dataset A)) (d : Dataset A) (idx : Z).
Import ConcatDataset.

Lemma len_nonneg d : 0 <= len d.
Proof. unfold len. lia. Qed.

Lemma offset_0 self : offset self 0 = 0.
Proof. reflexivity. Qed.

Lemma offset_S self (i : nat) d :
  self !! i = Some d → offset self (S i) = offset self i + len d.
Proof.
  intros Hi. unfold offset.
  rewrite (take_S_r _ _ _ Hi), map_app, py_sum_app. simpl.
  rewrite py_sum_cons, py_sum_nil. lia.
Qed.

Lemma offset_all self : offset self (length self) = __len__ self.
Proof. unfold offset, __len__. by rewrite firstn_all. Qed.

Lemma offset_mono self (i j : nat) :
  (i ≤ j)%nat → offset self i <= offset self j.
Proof.
  induction 1 as [|j _ IH]; [lia|].
  destruct (self !! j) as [d|] eqn:Hj.
  - rewrite (offset_S _ _ _ Hj). pose proof (len_nonneg d). lia.
  - apply lookup_ge_None in Hj. unfold offset in *.
    rewrite (take_ge self (S j)) by lia.
    by rewrite (take_ge self j) in IH by lia.
Qed.

Lemma offset_le_len self (i : nat) : offset self i <= __len__ self.
Proof.
  rewrite <- offset_all.
  destruct (decide (i ≤ length self)%nat) as [?|?]; [by apply offset_mono|].
  unfold offset. rewrite (take_ge self i), (take_ge self (length self)) by lia.
  lia.
Qed.

(** The loop, started at dataset [i] with the index already shifted by
    [offset self i], stops at the dataset whose range holds [idx]. *)
Lemma getitem_loop_in_range fuel self (i : nat) idx :
  (i < length self)%nat → (length self - i ≤ fuel)%nat →
  offset self i <= idx < __len__ self →
  ∃ (j : nat) d, self !! j = Some d ∧
    offset self j <= idx < offset self j + len d ∧
    getitem_loop fuel self (idx - offset self i) (Z.of_nat i)
    = Some (Ok (idx - offset self j, Z.of_nat j)).
Proof.
  revert i. induction fuel as [|fuel IH]; intros i Hi Hfuel Hidx; [lia|].
  destruct (lookup_lt_is_Some_2 self i Hi) as [d Hd].
  pose proof (offset_S _ _ _ Hd) as HS.
  simpl. rewrite (py_getitem_lookup _ _ _ Hd).
  destruct (Z.leb_spec (len d) (idx - offset self i)) as [Hge|Hlt]; simpl.
  - destruct (Z.ltb_spec (Z.of_nat i) (Z.of_nat (length self) - 1)) as [Hnl|Hl].
    + destruct (IH (S i)) as (j & d' & Hj & Hr & Hloop); [lia|lia|lia|].
      exists j, d'. split; [done|]. split; [done|].
      rewrite <- Hloop. f_equal; lia.
    + assert (S i = length self) as Hlast by lia.
      rewrite <- offset_all, <- Hlast in Hidx. lia.
  - exists i, d. split; [done|]. split; [lia|done].
Qed.

(** Past the end, the loop runs to the last dataset. *)
Lemma getitem_loop_past_end fuel self (i : nat) idx :
  (i < length self)%nat → (length self - i ≤ fuel)%nat →
  __len__ self <= idx →
  getitem_loop fuel self (idx - offset self i) (Z.of_nat i)
  = Some (Ok (idx - offset self (length self - 1), Z.of_nat (length self - 1))).
Proof.
  revert i. induction fuel as [|fuel IH]; intros i Hi Hfuel Hidx; [lia|].
  destruct (lookup_lt_is_Some_2 self i Hi) as [d Hd].
  pose proof (offset_S _ _ _ Hd) as HS.
  pose proof (offset_le_len self (S i)) as Hle.
  simpl. rewrite (py_getitem_lookup _ _ _ Hd).
  destruct (Z.leb_spec (len d) (idx - offset self i)) as [_|?]; [|lia]. simpl.
  destruct (Z.ltb_spec (Z.of_nat i) (Z.of_nat (length self) - 1)) as [Hnl|Hl].
  - rewrite <- (IH (S i)) by lia. f_equal; lia.
  - by replace (length self - 1)%nat with i by lia.
Qed.

(** The loop always exits: the fuel [__getitem__] gives it is enough. *)
Lemma getitem_loop_terminates fuel self (i : nat) idx :
  (length self - i < fuel)%nat →
  is_Some (getitem_loop fuel self idx (Z.of_nat i)).
Proof.
  revert i idx. induction fuel as [|fuel IH]; intros i idx Hfuel; [lia|].
  simpl. destruct (py_getitem self (Z.of_nat i)) as [d|e]; [|by eexists].
  destruct (_ && _) eqn:Hc; [|by eexists].
  apply andb_prop in Hc as [_ Hc%Z.ltb_lt].
  replace (Z.of_nat i + 1) with (Z.of_nat (S i)) by lia.
  apply IH. lia.
Qed.

Lemma getitem_terminates self idx : is_Some (__getitem__ self idx).
Proof.
  unfold __getitem__.
  destruct (getitem_loop_terminates (S (length self)) self 0 idx) as [r Hr];
    [lia|].
  change (Z.of_nat 0) with 0 in Hr. rewrite Hr.
  destruct r as [[? ?]|?]; by eexists.
Qed.

Lemma getitem_in_range self idx :
  0 <= idx < __len__ self →
  ∃ (i : nat) d, self !! i = Some d ∧
    offset self i <= idx < offset self i + len d ∧
    __getitem__ self idx = Some (ds_getitem d (idx - offset self i)).
Proof.
  intros Hidx.
  assert (0 < length self)%nat as Hne.
  { destruct self; simpl; [|lia]. unfold __len__ in Hidx. simpl in Hidx.
    rewrite py_sum_nil in Hidx. lia. }
  destruct (getitem_loop_in_range (S (length self)) self 0 idx)
    as (i & d & Hi & Hr & Hloop); [lia|lia|by rewrite offset_0|].
  exists i, d. split; [done|]. split; [done|].
  unfold __getitem__. rewrite offset_0, Z.sub_0_r in Hloop.
  change (Z.of_nat 0) with 0 in Hloop. rewrite Hloop.
  by rewrite (py_getitem_lookup _ _ _ Hi).
Qed.

(** The ranges of two different datasets do not overlap. *)
Lemma offset_ranges_disjoint self (i j : nat) d d' idx :
  (j < i)%nat → self !! i = Some d → self !! j = Some d' →
  offset self i <= idx → ¬ (idx < offset self j + len d').
Proof.
  intros Hji Hi Hj Hidx. rewrite <- (offset_S _ _ _ Hj).
  pose proof (offset_mono self (S j) i ltac:(lia)). lia.
Qed.

Lemma getitem_past_end self idx dl :
  last self = Some dl → __len__ self <= idx →
  len dl <= idx - offset self (length self - 1) ∧
  __getitem__ self idx
  = Some (ds_getitem dl (idx - offset self (length self - 1))).
Proof.
  intros Hl Hidx. rewrite last_lookup in Hl.
  pose proof (lookup_lt_Some _ _ _ Hl) as Hlt.
  replace (pred (length self)) with (length self - 1)%nat in Hl by lia.
  split.
  - pose proof (offset_S _ _ _ Hl) as HS.
    replace (S (length self - 1)) with (length self) in HS by lia.
    rewrite offset_all in HS. lia.
  - pose proof (getitem_loop_past_end (S (length self)) self 0 idx) as Hloop.
    rewrite offset_0, Z.sub_0_r in Hloop. change (Z.of_nat 0) with 0 in Hloop.
    unfold __getitem__. rewrite Hloop by lia.
    by rewrite (py_getitem_lookup _ _ _ Hl).
Qed.

Lemma getitem_negative d0 rest idx :
  idx < 0 → __getitem__ (d0 :: rest) idx = Some (ds_getitem d0 idx).
Proof.
  intros Hidx. unfold __getitem__. simpl.
  pose proof (len_nonneg d0).
  destruct (Z.leb_spec (len d0) idx) as [?|_]; [lia|]. done.
Qed.

(** C1. The length of a ConcatDataset is the sum of the lengths of its
    datasets, and for every index [idx] in [0, length) the access returns
    (the loop terminates) exactly what the dataset [d] at position [i] returns
    for [idx - offset i], where [i] is the first, and only, position whose
    cumulative range [offset i, offset i + len d) holds [idx]. *)
Theorem ConcatDataset_len_getitem self :
  __len__ self = Z.of_nat (sum_list (map ds_len self)) ∧
  ∀ idx, 0 <= idx < __len__ self →
    ∃ (i : nat) d, self !! i = Some d ∧
      offset self i <= idx < offset self i + len d ∧
      (∀ (j : nat) d', (j < i)%nat → self !! j = Some d' →
         ¬ (offset self j <= idx < offset self j + len d')) ∧
      __getitem__ self idx = Some (ds_getitem d (idx - offset self i)).
Proof.
  split.
  - unfold __len__. induction self as [|d self IH]; [done|].
    simpl. rewrite py_sum_cons, IH. unfold len. lia.
  - intros idx Hidx.
    destruct (getitem_in_range self idx Hidx) as (i & d & Hi & Hr & Hget).
    exists i, d. repeat split; try done; try lia.
    intros j d' Hji Hj [_ Hlt].
    apply (offset_ranges_disjoint self i j d d' idx); [done..|lia|done].
Qed.

(** C2, as amended. [__getitem__] checks no bound itself. An index at or
    past the length reaches the last dataset as an index at or past that
    dataset's own length, so the access raises IndexError whenever the last
    dataset checks its bounds. A negative index reaches the first dataset
    unchanged: the access does whatever that dataset does with it. *)
Theorem ConcatDataset_getitem_out_of_range self :
  (∀ idx dl, last self = Some dl → __len__ self <= idx →
     len dl <= idx - offset self (length self - 1) ∧
     __getitem__ self idx
     = Some (ds_getitem dl (idx - offset self (length self - 1))) ∧
     (bounds_checked dl → __getitem__ self idx = Some (Raise IndexError))) ∧
  (∀ idx d0, head self = Some d0 → idx < 0 →
     __getitem__ self idx = Some (ds_getitem d0 idx)).
Proof.
  split.
  - intros idx dl Hl Hidx.
    destruct (getitem_past_end self idx dl Hl Hidx) as [Hge Hget].
    repeat split; try done. intros Hbc. by rewrite Hget, Hbc.
  - intros idx d0 Hh Hidx. destruct self as [|d rest]; [done|].
    simpl in Hh. injection Hh as ->. by apply getitem_negative.
Qed.
End ConcatDatasetFacts.

(** The claim C1 at the index 2 of [example_datasets], which falls in the
    third dataset, past the empty one. *)
Lemma ConcatDataset_len_getitem_witness :
  0 <= 2 < ConcatDataset.__len__ example_datasets ∧
  ∃ (i : nat) d, example_datasets !! i = Some d ∧
    ConcatDataset.offset example_datasets i <= 2
      < ConcatDataset.offset example_datasets i + len d ∧
    (∀ (j : nat) d', (j < i)%nat → example_datasets !! j = Some d' →
       ¬ (ConcatDataset.offset example_datasets j <= 2
          < ConcatDataset.offset example_datasets j + len d')) ∧
    ConcatDataset.__getitem__ example_datasets 2
    = Some (ds_getitem d (2 - ConcatDataset.offset example_datasets i)).
Proof.
  assert (0 <= 2 < ConcatDataset.__len__ example_datasets) as H
    by (change (0 <= 2 < 3); lia).
  split; [exact H|].
  exact (proj2 (ConcatDataset_len_getitem example_datasets) 2 H).
Defined.

Example ConcatDataset_getitem_example :
  ConcatDataset.__len__ example_datasets = 3 ∧
  ConcatDataset.__getitem__ example_datasets 0 = Some (Ok 10) ∧
  ConcatDataset.__getitem__ example_datasets 1 = Some (Ok 20) ∧
  ConcatDataset.__getitem__ example_datasets 2 = Some (Ok 30).
Proof. repeat split. Qed.

(** C2 as stated fails: on [example_datasets] the access at -1 raises
    nothing and returns the last item of the first list. *)
Lemma ConcatDataset_getitem_minus_one_returns :
  -1 < 0 ∧
  ConcatDataset.__getitem__ example_datasets (-1) = Some (Ok 20) ∧
  ¬ ∃ e, ConcatDataset.__getitem__ example_datasets (-1) = Some (Raise e).
Proof. split; [lia|]. split; [reflexivity|]. intros [e He]. discriminate He. Qed.

(** The amended C2 on [example_datasets]: the access at the length 3 raises
    IndexError in the last list, the access at -1 is the first list's. *)
Lemma ConcatDataset_getitem_out_of_range_witness :
  (last example_datasets = Some (list_dataset [30]) ∧
   ConcatDataset.__len__ example_datasets <= 3 ∧
   bounds_checked (list_dataset [30]) ∧
   ConcatDataset.__getitem__ example_datasets 3 = Some (Raise IndexError)) ∧
  (head example_datasets = Some (list_dataset [10; 20]) ∧
   -1 < 0 ∧
   ConcatDataset.__getitem__ example_datasets (-1)
   = Some (ds_getitem (list_dataset [10; 20]) (-1))).
Proof.
  assert (ConcatDataset.__len__ example_datasets <= 3) as Hlen
    by (change (3 <= 3); lia).
  assert (-1 < 0) as Hneg by lia.
  pose proof (list_dataset_bounds_checked [30]) as Hbc.
  destruct (ConcatDataset_getitem_out_of_range example_datasets) as [Hend Hhead].
  split.
  - split; [reflexivity|]. split; [exact Hlen|]. split; [exact Hbc|].
    exact (proj2 (proj2 (Hend 3 (list_dataset [30]) eq_refl Hlen)) Hbc).
  - split; [reflexivity|]. split; [exact Hneg|].
    exact (Hhead (-1) (list_dataset [10; 20]) eq_refl Hneg).
Defined.

(** ** AugmentedDataset *)

Section AugmentedDatasetFacts.
Context `{PyAdd V}.
Implicit Types (dataset augmented_data : Dataset (pyval V)).
Implicit Types (self : gmap string (Dataset (pyval V))).
Import AugmentedDataset.

Lemma init_cases dataset augmented_data :
  __init__ dataset augmented_data
  = if bool_decide (len dataset = len augmented_data)
    then Raise AttributeError else Raise AssertionError.
Proof.
  unfold __init__, getattr. case_bool_decide; simpl; [|done].
  rewrite lookup_insert_ne by done. by rewrite lookup_empty.
Qed.

(** What the two methods do on an instance that has both attributes: the
    behaviour the class is written for. *)
Lemma methods_on_complete_instance self dataset augmented_data idx :
  self !! "dataset" = Some dataset →
  self !! "augmented_data" = Some augmented_data →
  __len__ self = Ok (len dataset) ∧
  __getitem__ self idx
  = (x ← ds_getitem dataset idx;
     y ← ds_getitem augmented_data idx;
     tuple_add x [y]).
Proof.
  intros Hd Ha. unfold __len__, __getitem__, getattr. rewrite Hd. simpl.
  split; [done|]. destruct (ds_getitem dataset idx); simpl; [|done].
  by rewrite Ha.
Qed.

(** C4. With equal lengths the constructor raises AttributeError, in
    [__init__] itself: the attribute [augmented_data] is read and was never
    assigned. No pair of arguments yields an instance. *)
Theorem AugmentedDataset_init_raises_AttributeError dataset augmented_data :
  (len dataset = len augmented_data →
   __init__ dataset augmented_data = Raise AttributeError) ∧
  (∀ self, __init__ dataset augmented_data ≠ Ok self).
Proof.
  rewrite init_cases. split.
  - intros Hlen. by rewrite bool_decide_eq_true_2.
  - intros self. by case_bool_decide.
Qed.

(** C10. With different lengths the constructor raises at once, on its
    first statement, the assertion, before any attribute is set and with no
    access to an item. *)
Theorem AugmentedDataset_init_length_mismatch dataset augmented_data :
  len dataset ≠ len augmented_data →
  __init__ dataset augmented_data = Raise AssertionError.
Proof. intros Hlen. rewrite init_cases. by rewrite bool_decide_eq_false_2. Qed.
End AugmentedDatasetFacts.

(** C3 fails on the code: for the dataset [[(1, 2)]] and the auxiliary
    sequence [[7]], of equal lengths, the constructor raises AttributeError,
    so there is no instance whose length is 1 and whose item 0 is
    [(1, 2, 7)]. An instance that did hold both attributes would give
    exactly these. *)
Theorem AugmentedDataset_example_not_constructed :
  len example_pairs = len example_aux ∧
  AugmentedDataset.__init__ example_pairs example_aux = Raise AttributeError ∧
  (let fixed : gmap string (Dataset (pyval Z)) :=
     <["augmented_data" := example_aux]> (<["dataset" := example_pairs]> ∅) in
   AugmentedDataset.__len__ fixed = Ok 1 ∧
   AugmentedDataset.__getitem__ fixed 0
   = Ok (PyTuple [PyLeaf 1; PyLeaf 2; PyLeaf 7])).
Proof. repeat split. Qed.

Lemma AugmentedDataset_init_raises_AttributeError_witness :
  len example_pairs = len example_aux ∧
  AugmentedDataset.__init__ example_pairs example_aux = Raise AttributeError.
Proof.
  split; [reflexivity|].
  exact (proj1 (AugmentedDataset_init_raises_AttributeError
                  example_pairs example_aux) eq_refl).
Defined.

Lemma AugmentedDataset_init_length_mismatch_witness :
  len example_pairs ≠ len example_aux_long ∧
  AugmentedDataset.__init__ example_pairs example_aux_long
  = Raise AssertionError.
Proof.
  assert (len example_pairs ≠ len example_aux_long) as H by (intros H; discriminate H).
  split; [exact H|].
  exact (AugmentedDataset_init_length_mismatch example_pairs example_aux_long H).
Defined.

(** ** AverageMeter *)

Lemma py_div_nonzero (x y : Q) : ¬ (y == 0)%Q → py_div x y = Ok (x / y)%Q.
Proof.
  intros Hy. unfold py_div. destruct (Qeq_bool y 0) eqn:E; [|done].
  by apply Qeq_bool_eq in E.
Qed.

Lemma py_div_zero (x y : Q) : (y == 0)%Q → py_div x y = Raise ZeroDivisionError.
Proof. intros Hy. unfold py_div. by rewrite (Qeq_eq_bool _ _ Hy). Qed.

Lemma float_of_int_raise z e : float_of_int z = Raise e → e = OverflowError.
Proof.
  unfold float_of_int. destruct (binary_normalize 53 1024 z 0 false);
    by intros [= <-].
Qed.

Lemma py_float_raise a e : py_float a = Raise e → e = OverflowError.
Proof. destruct a as [z|x]; [apply float_of_int_raise|done]. Qed.

Lemma py_float_zero a :
  py_num_is_zero a = true → ∃ s, py_float a = Ok (S754_zero s).
Proof.
  destruct a as [z|[s|s| |s m e]]; simpl; try done.
  - intros ->%Z.eqb_eq. by exists false.
  - intros _. by exists s.
Qed.

Lemma py_num_mul_raise a b e : py_num_mul a b = Raise e → e = OverflowError.
Proof.
  unfold py_num_mul. destruct a as [x|x], b as [y|y]; simpl; try done.
  - destruct (float_of_int x) eqn:E; [done|]. intros [= <-].
    by eapply float_of_int_raise.
  - destruct (float_of_int y) eqn:E; [done|]. intros [= <-].
    by eapply float_of_int_raise.
Qed.

Lemma py_num_add_raise a b e : py_num_add a b = Raise e → e = OverflowError.
Proof.
  unfold py_num_add. destruct a as [x|x], b as [y|y]; simpl; try done.
  - destruct (float_of_int x) eqn:E; [done|]. intros [= <-].
    by eapply float_of_int_raise.
  - destruct (float_of_int y) eqn:E; [done|]. intros [= <-].
    by eapply float_of_int_raise.
Qed.

Lemma py_num_add_zero a b :
  py_num_is_zero a = true → py_num_is_zero b = true →
  ∃ c, py_num_add a b = Ok c ∧ py_num_is_zero c = true.
Proof.
  intros Ha Hb.
  destruct (py_float_zero a Ha) as [sa Hfa], (py_float_zero b Hb) as [sb Hfb].
  unfold py_num_add. destruct a as [x|x], b as [y|y].
  - simpl in Ha, Hb. apply Z.eqb_eq in Ha as ->, Hb as ->. by exists (PyInt 0).
  - rewrite Hfa, Hfb. simpl. eexists. split; [reflexivity|].
    by destruct sa, sb.
  - rewrite Hfa, Hfb. simpl. eexists. split; [reflexivity|].
    by destruct sa, sb.
  - rewrite Hfa, Hfb. simpl. eexists. split; [reflexivity|].
    by destruct sa, sb.
Qed.

Lemma int_truediv_raise a b e :
  int_truediv a b = Raise e →
  (b = 0 ∧ e = ZeroDivisionError) ∨ (b ≠ 0 ∧ e = OverflowError).
Proof.
  unfold int_truediv. destruct (Z.eqb_spec b 0) as [->|Hb].
  - intros [= <-]. by left.
  - destruct (a =? 0); [done|].
    destruct (SFdiv_core_binary 53 1024 (Z.abs a) 0 (Z.abs b) 0) as [[mz ez] lz].
    destruct (binary_round_aux 53 1024 _ mz ez lz); try done.
    intros [= <-]. by right.
Qed.

(** Dividing by a zero raises, whatever is divided. *)
Lemma py_num_truediv_zero a b :
  py_num_is_zero b = true →
  py_num_truediv a b = Raise ZeroDivisionError ∨
  py_num_truediv a b = Raise OverflowError.
Proof.
  intros Hb. destruct (py_float_zero b Hb) as [sb Hfb].
  unfold py_num_truediv. destruct a as [x|x], b as [y|y].
  - simpl in Hb. apply Z.eqb_eq in Hb as ->. by left.
  - rewrite Hfb. destruct (py_float (PyInt x)) as [fx|e] eqn:E; simpl.
    + by left.
    + right. by rewrite (py_float_raise _ _ E).
  - rewrite Hfb. simpl. by left.
  - rewrite Hfb. simpl. by left.
Qed.

Section AverageMeterFacts.
Import AverageMeter.
Implicit Types (self : AverageMeter.t) (us : list (Z * Z)).

Lemma total_weight_nonneg us : Forall (λ u, 0 < u.2) us → 0 <= total_weight us.
Proof. induction 1 as [|u us Hu _ IH]; simpl; lia. Qed.

Lemma total_weight_pos us :
  Forall (λ u, 0 < u.2) us → us ≠ [] → 0 < total_weight us.
Proof.
  intros Hall Hne. destruct Hall as [|u us Hu Hus]; [done|]. simpl.
  pose proof (total_weight_nonneg us Hus). lia.
Qed.

(** One update of an int value with an int weight on a meter whose sum and
    count are ints: the sum and the count are updated exactly, and the
    average is their true quotient. *)
Lemma update_int self (s c v n : Z) :
  sum self = PyInt s → count self = PyInt c →
  update self (PyInt v) (PyInt n)
  = match int_truediv (s + v * n) (c + n) with
    | Ok q => ({| val := PyInt v; avg := PyFloat q; sum := PyInt (s + v * n);
                  count := PyInt (c + n) |}, Ok tt)
    | Raise e => ({| val := PyInt v; avg := avg self;
                     sum := PyInt (s + v * n); count := PyInt (c + n) |},
                  Raise e)
    end.
Proof.
  intros Hs Hc. unfold update. simpl. rewrite Hs, Hc. simpl.
  by destruct (int_truediv (s + v * n) (c + n)).
Qed.

(** A run of int updates with positive weights, from a meter whose sum and
    count are ints, the count not negative. *)
Lemma updates_int us : ∀ self (s c : Z),
  sum self = PyInt s → count self = PyInt c → 0 <= c →
  Forall (λ u, 0 < u.2) us →
  ∃ self' r, updates self (int_updates us) = (self', r) ∧
    (r = Ok tt →
     sum self' = PyInt (s + weighted_sum us) ∧
     count self' = PyInt (c + total_weight us) ∧
     (us = [] → self' = self) ∧
     (us ≠ [] →
      PyFloat <$> int_truediv (s + weighted_sum us) (c + total_weight us)
      = Ok (avg self'))) ∧
    (∀ e, r = Raise e → e = OverflowError).
Proof.
  induction us as [|[v n] us IH]; intros self s c Hs Hc Hc0 Hall.
  - exists self, (Ok tt). simpl. split; [done|]. split; [|done].
    intros _. rewrite Hs, Hc, !Z.add_0_r. done.
  - apply Forall_cons in Hall as [Hn Hall]. simpl in Hn.
    simpl. rewrite (update_int self s c v n Hs Hc).
    destruct (int_truediv (s + v * n) (c + n)) as [q|e] eqn:Hq.
    + destruct (IH {| val := PyInt v; avg := PyFloat q;
                      sum := PyInt (s + v * n); count := PyInt (c + n) |}
                  (s + v * n) (c + n)) as (self' & r & Hrun & Hok & Herr);
        [done|done|lia|done|].
      exists self', r. split; [done|]. split; [|done].
      intros Hr. destruct (Hok Hr) as (Hsum & Hcount & Hnil & Hcons).
      split; [rewrite Hsum; f_equal; lia|].
      split; [rewrite Hcount; f_equal; lia|]. split; [done|]. intros _.
      destruct us as [|u us'].
      * rewrite (Hnil eq_refl). simpl. rewrite !Z.add_0_r, Hq. done.
      * rewrite <- (Hcons ltac:(done)). simpl. do 2 f_equal; lia.
    + eexists _, (Raise e). split; [done|]. split; [done|].
      intros e' [= <-].
      destruct (int_truediv_raise _ _ _ Hq) as [[? _]|[_ ?]]; [lia|done].
Qed.

(** C5, as amended. After a reset, a sequence of updates with int values
    and positive int weights either runs through or stops at an update
    whose quotient is too large for a float, with OverflowError. When it
    runs through, the sum and the count are exactly the weighted sum and
    the total weight, and [avg] is their true quotient, the weighted mean
    rounded once to the nearest float; the sequence (2, 1), (4, 1), (6, 2)
    leaves the float 4.5. *)
Theorem AverageMeter_weighted_mean_int self0 :
  (∀ us, Forall (λ u, 0 < u.2) us →
     ∃ self r, updates (reset self0) (int_updates us) = (self, r) ∧
       (r = Ok tt →
        sum self = PyInt (weighted_sum us) ∧
        count self = PyInt (total_weight us) ∧
        (us ≠ [] →
         0 < total_weight us ∧
         PyFloat <$> int_truediv (weighted_sum us) (total_weight us)
         = Ok (avg self))) ∧
       (∀ e, r = Raise e → e = OverflowError)) ∧
  (∃ self x q, updates (reset self0) (int_updates example_updates)
               = (self, Ok tt) ∧
     avg self = PyFloat x ∧ float_value x = Some q ∧ (q == 9 # 2)%Q).
Proof.
  split.
  - intros us Hall.
    destruct (updates_int us (reset self0) 0 0) as
      (self & r & Hrun & Hok & Herr); [done|done|lia|done|].
    exists self, r. split; [done|]. split; [|done].
    intros Hr. destruct (Hok Hr) as (Hsum & Hcount & _ & Hcons).
    split; [done|]. split; [done|]. intros Hne.
    split; [by apply total_weight_pos|]. by apply Hcons.
  - do 3 eexists. split; [vm_compute; reflexivity|].
    split; [reflexivity|]. split; [reflexivity|]. reflexivity.
Qed.

(** C6, as amended. On Python ints and floats, an update of weight zero
    on a meter whose count is zero always raises: nothing guards the
    division. [avg] is left as it was and [val] is the new value. The
    error is ZeroDivisionError, or OverflowError when an int too large for
    a float has to be converted on the way. Right after a reset, with the
    int weight 0, it is ZeroDivisionError; the count stays the int 0 and the
    sum stays zero, or becomes nan when the value is an infinity or nan. *)
Theorem AverageMeter_update_zero_count self v n :
  (py_num_is_zero (count self) = true → py_num_is_zero n = true →
   ∃ self' e, update self v n = (self', Raise e) ∧
     avg self' = avg self ∧ val self' = v ∧
     (e = ZeroDivisionError ∨ e = OverflowError)) ∧
  (∃ self', update (reset self) v (PyInt 0) = (self', Raise ZeroDivisionError) ∧
     avg self' = PyInt 0 ∧ val self' = v ∧ count self' = PyInt 0 ∧
     (sum self' = PyInt 0 ∨ sum self' = PyFloat (S754_zero false)
      ∨ sum self' = PyFloat S754_nan)).
Proof.
  split.
  - intros Hc Hn. unfold update. simpl.
    destruct (py_num_mul v n) as [p|e] eqn:Hmul; simpl.
    2:{ do 2 eexists. split; [reflexivity|]. split; [done|]. split; [done|].
        right. by eapply py_num_mul_raise. }
    destruct (py_num_add (sum self) p) as [s|e] eqn:Hadd.
    2:{ do 2 eexists. split; [reflexivity|]. split; [done|]. split; [done|].
        right. by eapply py_num_add_raise. }
    simpl. destruct (py_num_add_zero _ _ Hc Hn) as (c & -> & Hz).
    destruct (py_num_truediv_zero s c Hz) as [-> | ->];
      do 2 eexists; (split; [reflexivity|]); simpl; auto.
  - unfold update. destruct v as [z|[s|s| |s m e]]; simpl.
    + rewrite Z.mul_0_r. eexists. split; [reflexivity|]. simpl. auto.
    + eexists. split; [reflexivity|]. destruct s; simpl; auto 10.
    + eexists. split; [reflexivity|]. simpl. auto 10.
    + eexists. split; [reflexivity|]. simpl. auto 10.
    + eexists. split; [reflexivity|]. destruct s; simpl; auto 10.
Qed.
End AverageMeterFacts.

Lemma AverageMeter_weighted_mean_int_witness :
  Forall (λ u : Z * Z, 0 < u.2) example_updates ∧
  ∃ self r,
    AverageMeter.updates (AverageMeter.reset AverageMeter.__init__)
      (AverageMeter.int_updates example_updates) = (self, r) ∧
    (r = Ok tt →
     AverageMeter.sum self
     = PyInt (AverageMeter.weighted_sum example_updates) ∧
     AverageMeter.count self
     = PyInt (AverageMeter.total_weight example_updates) ∧
     (example_updates ≠ [] →
      0 < AverageMeter.total_weight example_updates ∧
      PyFloat <$> int_truediv (AverageMeter.weighted_sum example_updates)
                    (AverageMeter.total_weight example_updates)
      = Ok (AverageMeter.avg self))) ∧
    (∀ e, r = Raise e → e = OverflowError).
Proof.
  assert (Forall (λ u : Z * Z, 0 < u.2) example_updates) as H
    by (repeat constructor).
  split; [exact H|].
  exact (proj1 (AverageMeter_weighted_mean_int AverageMeter.__init__)
           example_updates H).
Defined.

(** C5 as stated fails. With the value [10 ** 400] and the weight 1 the
    update raises OverflowError and no average is stored. With three updates
    of the float value 0.1 and weight 1 the average is the next float above
    0.1, not the weighted mean 0.1 of the values. *)
Lemma AverageMeter_weighted_mean_fails :
  (AverageMeter.updates (AverageMeter.reset AverageMeter.__init__)
     example_huge_updates).2 = Raise OverflowError ∧
  ∃ self a v,
    AverageMeter.updates (AverageMeter.reset AverageMeter.__init__)
      example_float_updates = (self, Ok tt) ∧
    AverageMeter.avg self = PyFloat (S754_finite false 7205759403792795 (-56)) ∧
    float_value (S754_finite false 7205759403792795 (-56)) = Some a ∧
    float_value float_0_1 = Some v ∧
    ¬ (a == (v * 1 + v * 1 + v * 1) / (1 + 1 + 1))%Q.
Proof.
  split; [vm_compute; reflexivity|].
  do 3 eexists. split; [vm_compute; reflexivity|].
  split; [reflexivity|]. split; [reflexivity|]. split; [reflexivity|].
  vm_compute. discriminate.
Qed.

(** C6 as stated fails: right after a reset, [update(5, 0)] raises. *)
Lemma AverageMeter_update_zero_weight_fails :
  py_num_is_zero (AverageMeter.count (AverageMeter.reset AverageMeter.__init__))
  = true ∧
  (AverageMeter.update (AverageMeter.reset AverageMeter.__init__)
     (PyInt 5) (PyInt 0)).2 = Raise ZeroDivisionError ∧
  (AverageMeter.update (AverageMeter.reset AverageMeter.__init__)
     (PyInt 5) (PyInt 0)).2 ≠ Ok tt.
Proof. split; [reflexivity|]. split; [reflexivity|]. intros H. discriminate H. Qed.

Lemma AverageMeter_update_zero_count_witness :
  py_num_is_zero (AverageMeter.count AverageMeter.__init__) = true ∧
  py_num_is_zero (PyFloat (S754_zero true)) = true ∧
  ∃ self' e,
    AverageMeter.update AverageMeter.__init__ (PyInt 5)
      (PyFloat (S754_zero true)) = (self', Raise e) ∧
    AverageMeter.avg self' = AverageMeter.avg AverageMeter.__init__ ∧
    AverageMeter.val self' = PyInt 5 ∧
    (e = ZeroDivisionError ∨ e = OverflowError).
Proof.
  assert (py_num_is_zero (AverageMeter.count AverageMeter.__init__) = true)
    as H1 by reflexivity.
  assert (py_num_is_zero (PyFloat (S754_zero true)) = true) as H2
    by reflexivity.
  split; [exact H1|]. split; [exact H2|].
  exact (proj1 (AverageMeter_update_zero_count AverageMeter.__init__ (PyInt 5)
                  (PyFloat (S754_zero true))) H1 H2).
Defined.

Example AverageMeter_update_examples :
  (AverageMeter.update AverageMeter.__init__ (PyFloat (S754_infinity false))
     (PyInt 0)).1
  = AverageMeter.mk (PyFloat (S754_infinity false)) (PyInt 0)
      (PyFloat S754_nan) (PyInt 0) ∧
  (AverageMeter.update AverageMeter.__init__ (PyInt (10 ^ 400))
     (PyFloat (S754_zero false))).2 = Raise OverflowError ∧
  (AverageMeter.update AverageMeter.__init__ (PyInt 0) (PyInt (-5))).1
  = AverageMeter.mk (PyInt 0) (PyFloat (S754_zero true)) (PyInt 0)
      (PyInt (-5)).
Proof. repeat split; vm_compute; reflexivity. Qed.

(** ** accuracy *)

Lemma fold_left_max_bounds (xs : list Z) (x a b : Z) :
  a <= x <= b → Forall (λ k, a <= k <= b) xs →
  a <= fold_left Z.max xs x <= b ∧ x <= fold_left Z.max xs x ∧
  Forall (λ k, k <= fold_left Z.max xs x) xs.
Proof.
  revert x. induction xs as [|y xs IH]; intros x Hx Hall; simpl.
  - repeat split; try lia. constructor.
  - apply Forall_cons in Hall as [Hy Hall].
    destruct (IH (Z.max x y)) as (Hb & Hge & Hle); [lia|done|].
    repeat split; try lia. constructor; [lia|done].
Qed.

Lemma py_max_bounds (topk : list Z) (a b : Z) :
  topk ≠ [] → Forall (λ k, a <= k <= b) topk →
  ∃ m, py_max topk = Ok m ∧ a <= m <= b ∧ Forall (λ k, k <= m) topk.
Proof.
  intros Hne Hall. destruct topk as [|x xs]; [done|].
  apply Forall_cons in Hall as [Hx Hall].
  destruct (fold_left_max_bounds xs x a b Hx Hall) as (Hb & Hge & Hle).
  eexists. split; [reflexivity|]. split; [done|]. by constructor.
Qed.

Lemma mapM_Ok {A B} (f : A → result B) (g : A → B) (l : list A) :
  (∀ x, x ∈ l → f x = Ok (g x)) → mapM f l = Ok (g <$> l).
Proof.
  induction l as [|x l IH]; intros Hf; [done|].
  simpl. rewrite (Hf x) by left. simpl.
  rewrite IH; [done|]. intros y Hy. apply Hf. by right.
Qed.

Lemma mapM_ext_in {A B} (f g : A → result B) (l : list A) :
  (∀ x, x ∈ l → f x = g x) → mapM f l = mapM g l.
Proof.
  induction l as [|x l IH]; intros Hfg; [done|].
  simpl. rewrite (Hfg x) by left. rewrite IH; [done|].
  intros y Hy. apply Hfg. by right.
Qed.

(** A loop whose body can fail with [e] only, and does fail at some item,
    raises [e]. *)
Lemma mapM_Raise {A B} (f : A → result B) (e : exn) (l : list A) :
  (∀ x, x ∈ l → f x = Raise e ∨ ∃ y, f x = Ok y) →
  (∃ x, x ∈ l ∧ f x = Raise e) → mapM f l = Raise e.
Proof.
  induction l as [|x l IH]; intros Hf (x0 & Hin & Hx0).
  - by apply elem_of_nil in Hin.
  - simpl. destruct (Hf x ltac:(left)) as [->|[y Hy]]; [done|].
    rewrite Hy. simpl. rewrite IH; [done| |].
    + intros z Hz. apply Hf. by right.
    + apply elem_of_cons in Hin as [->|Hin]; [congruence|]. by exists x0.
Qed.

(** *** The stable sort meets the contract of [topk] *)

Lemma insert_desc_perm x l : insert_desc x l ≡ₚ x :: l.
Proof.
  induction l as [|y l IH]; simpl; [done|].
  destruct (Qle_bool y.2 x.2); [done|]. rewrite IH. apply Permutation_swap.
Qed.

Lemma sort_desc_perm l : sort_desc l ≡ₚ l.
Proof.
  induction l as [|x l IH]; simpl; [done|].
  by rewrite insert_desc_perm, IH.
Qed.

Lemma insert_desc_sorted x l :
  StronglySorted (λ p q : nat * Q, (q.2 <= p.2)%Q) l →
  StronglySorted (λ p q : nat * Q, (q.2 <= p.2)%Q) (insert_desc x l).
Proof.
  induction 1 as [|y l Hl IH Hy]; simpl.
  - repeat constructor.
  - destruct (Qle_bool y.2 x.2) eqn:E.
    + apply Qle_bool_iff in E. constructor; [by constructor|].
      constructor; [done|]. eapply Forall_impl; [exact Hy|].
      intros z Hz. simpl in Hz. by apply Qle_trans with y.2.
    + constructor; [done|].
      rewrite insert_desc_perm.
      constructor; [|done].
      assert (¬ (y.2 <= x.2)%Q) as Hn.
      { intros Hc. apply Qle_bool_iff in Hc. congruence. }
      apply Qlt_le_weak. by apply Qnot_le_lt.
Qed.

Lemma sort_desc_sorted l :
  StronglySorted (λ p q : nat * Q, (q.2 <= p.2)%Q) (sort_desc l).
Proof.
  induction l as [|x l IH]; simpl; [constructor|].
  by apply insert_desc_sorted.
Qed.

Lemma sorted_lookup_lt {A} (R : A → A → Prop) (l : list A) (i j : nat) x y :
  StronglySorted R l → (i < j)%nat →
  l !! i = Some x → l !! j = Some y → R x y.
Proof.
  intros Hs. revert i j. induction Hs as [|a l Hl IH Ha]; intros i j Hij Hi Hj.
  - done.
  - destruct j as [|j]; [lia|]. simpl in Hj. destruct i as [|i].
    + injection Hi as <-. rewrite Forall_forall in Ha.
      by eapply Ha, list_elem_of_lookup_2.
    + simpl in Hi. apply (IH i j); [lia|done|done].
Qed.

Lemma elem_of_zip_seq {A} (row : list A) (j : nat) (s : A) :
  (j, s) ∈ zip (seq 0 (length row)) row ↔ row !! j = Some s.
Proof.
  rewrite list_elem_of_lookup. split.
  - intros [i Hi]. apply lookup_zip_with_Some in Hi as (x & y & Heq & Hx & Hy).
    injection Heq as -> ->. apply lookup_seq in Hx as [-> _]. done.
  - intros Hj. exists j. apply lookup_zip_with_Some. exists j, s.
    split; [done|]. split; [|done]. apply lookup_seq.
    split; [done|]. by eapply lookup_lt_Some.
Qed.

Lemma stable_topk_contract : @topk_contract StableTopK.
Proof.
  intros row k Hk. unfold topk_row, StableTopK, topk_row_stable.
  pose proof (sort_desc_perm (zip (seq 0 (length row)) row)) as Hp.
  pose proof (sort_desc_sorted (zip (seq 0 (length row)) row)) as Hs.
  set (L := sort_desc (zip (seq 0 (length row)) row)) in *.
  assert (∀ i a x, L !! i = Some (a, x) → row !! a = Some x) as Hel.
  { intros i a x Hi. apply elem_of_zip_seq. rewrite <- Hp.
    by eapply list_elem_of_lookup_2. }
  assert (∀ i a, (take k L).*1 !! i = Some a →
            ∃ x, (i < k)%nat ∧ L !! i = Some (a, x)) as Hidx.
  { intros i a Hi. rewrite list_lookup_fmap in Hi.
    destruct (take k L !! i) as [[a' x]|] eqn:E; [|done].
    simpl in Hi. injection Hi as ->.
    apply lookup_take_Some in E as [? ?]. eauto. }
  split; [|split; [|split; [|split]]].
  - rewrite length_fmap, length_take, (Permutation_length Hp).
    rewrite length_zip_with, length_seq. lia.
  - rewrite fmap_take. eapply sublist_NoDup; [|apply sublist_take].
    rewrite Hp, fst_zip by (by rewrite length_seq). apply NoDup_seq.
  - apply Forall_forall. intros a Ha.
    apply list_elem_of_lookup in Ha as [i Hi].
    destruct (Hidx i a Hi) as (x & _ & Hx).
    eapply lookup_lt_Some, Hel, Hx.
  - intros i j a b x y Hij Hi Hj Ha Hb.
    destruct (Hidx i a Hi) as (x' & _ & Hi').
    destruct (Hidx j b Hj) as (y' & _ & Hj').
    pose proof (Hel _ _ _ Hi') as Ha'. pose proof (Hel _ _ _ Hj') as Hb'.
    assert (x' = x) as -> by congruence. assert (y' = y) as -> by congruence.
    destruct (decide (i = j)) as [->|Hne].
    + assert (y = x) as -> by congruence. apply Qle_refl.
    + apply (sorted_lookup_lt _ L i j (a, x) (b, y) Hs); [lia|done|done].
  - intros a b x y Ha Hb Hx Hy.
    apply list_elem_of_lookup in Ha as [i Hi].
    destruct (Hidx i a Hi) as (x' & Hik & Hi').
    pose proof (Hel _ _ _ Hi') as Ha'. assert (x' = x) as -> by congruence.
    assert ((b, y) ∈ L) as Hin by (rewrite Hp; by apply elem_of_zip_seq).
    apply list_elem_of_lookup in Hin as [j Hj].
    destruct (decide (j < k)%nat) as [Hjk|Hjk].
    + destruct Hb. apply list_elem_of_lookup. exists j.
      by rewrite list_lookup_fmap, lookup_take_lt, Hj.
    + apply (sorted_lookup_lt _ L i j (a, x) (b, y) Hs); [lia|done|done].
Qed.

(** *** What the contract of [topk] gives *)

Section TopKFacts.
Context `{TopK} (Hspec : topk_contract).

Lemma length_topk_row row k : (k ≤ length row)%nat → length (topk_row row k) = k.
Proof. intros Hk. by destruct (Hspec row k Hk) as (? & _). Qed.

Lemma NoDup_topk_row row k : (k ≤ length row)%nat → NoDup (topk_row row k).
Proof. intros Hk. by destruct (Hspec row k Hk) as (_ & ? & _). Qed.

(** With [k = C] the predictions are all the classes, in some order. *)
Lemma topk_row_full row : topk_row row (length row) ≡ₚ seq 0 (length row).
Proof.
  destruct (Hspec row (length row) ltac:(done)) as (Hlen & Hnd & Hr & _).
  apply submseteq_length_Permutation.
  - apply NoDup_submseteq; [done|]. intros a Ha.
    rewrite Forall_forall in Hr. specialize (Hr a Ha).
    apply elem_of_seq. lia.
  - by rewrite length_seq, Hlen.
Qed.

(** A label that is the single highest-scoring class is the first
    prediction. *)
Lemma topk_row_head row label k :
  (0 < k ≤ length row)%nat → strict_top1 row label →
  ∃ l, label = Z.of_nat l ∧ head (topk_row row k) = Some l.
Proof.
  intros [Hk Hkl] (l & s & -> & Hl & Hmax). exists l. split; [done|].
  destruct (Hspec row k Hkl) as (Hlen & Hnd & Hr & Hsort & Hbig).
  destruct (topk_row row k) as [|a idx] eqn:E; [simpl in Hlen; lia|].
  simpl. f_equal.
  destruct (decide (a = l)) as [|Hne]; [done|exfalso].
  apply Forall_cons in Hr as [Ha _].
  apply lookup_lt_is_Some_2 in Ha as [x Hx].
  specialize (Hmax a x Hx Hne).
  destruct (decide (l ∈ a :: idx)) as [Hin|Hnin].
  - apply list_elem_of_lookup in Hin as [j Hj].
    pose proof (Hsort 0%nat j a l x s ltac:(lia) eq_refl Hj Hx Hl). lra.
  - pose proof (Hbig a l x s ltac:(left) Hnin Hx Hl). lra.
Qed.

(** The first [k] of the [maxk] predictions are [k] predictions as [topk]
    gives them. *)
Lemma is_topk_take row (k maxk : nat) :
  (k ≤ maxk ≤ length row)%nat →
  is_topk row k (take k (topk_row row maxk)).
Proof.
  intros [Hk Hm].
  destruct (Hspec row maxk Hm) as (Hlen & Hnd & Hr & Hsort & Hbig).
  split; [|split; [|split; [|split]]].
  - rewrite length_take. lia.
  - eapply sublist_NoDup; [exact Hnd|apply sublist_take].
  - by apply Forall_take.
  - intros i j a b x y Hij Hi Hj. apply lookup_take_Some in Hi as [Hi _].
    apply lookup_take_Some in Hj as [Hj _]. by apply (Hsort i j).
  - intros a b x y Ha Hb Hx Hy.
    apply list_elem_of_lookup in Ha as [i Hi].
    apply lookup_take_Some in Hi as [Hi Hik].
    destruct (decide (b ∈ topk_row row maxk)) as [Hin|Hnin].
    + apply list_elem_of_lookup in Hin as [j Hj].
      destruct (decide (j < k)%nat) as [Hjk|Hjk].
      * destruct Hb. apply list_elem_of_lookup. exists j.
        by rewrite lookup_take_lt.
      * apply (Hsort i j a b); [lia|done..].
    + apply (Hbig a b); [by eapply list_elem_of_lookup_2|done..].
Qed.
End TopKFacts.

(** *** Counting the correct predictions *)

Lemma count_true_cons b bs :
  count_true (b :: bs) = ((if b then 1 else 0) + count_true bs)%nat.
Proof.
  unfold count_true. destruct b.
  - rewrite filter_cons_True by exact I. reflexivity.
  - rewrite filter_cons_False by (intros []). reflexivity.
Qed.

Lemma count_true_app bs bs' :
  count_true (bs ++ bs') = (count_true bs + count_true bs')%nat.
Proof. unfold count_true. by rewrite filter_app, length_app. Qed.

Lemma count_true_perm {A} (f : A → bool) (l l' : list A) :
  l ≡ₚ l' → count_true (f <$> l) = count_true (f <$> l').
Proof. intros Hp. unfold count_true. by rewrite Hp. Qed.

(** Column by column or row by row, the count is the same. *)
Lemma count_true_columns (f : nat → bool) (g : nat → list bool)
    (js : list nat) :
  count_true (concat (map (λ j, f j :: g j) js))
  = (count_true (f <$> js) + count_true (concat (map g js)))%nat.
Proof.
  induction js as [|j js IH]; [done|].
  csimpl. rewrite !count_true_cons, !count_true_app, IH. lia.
Qed.

(** When every example is hit exactly once in the columns [js] of the
    predictions, the correct entries of these columns are as many as the
    examples. *)
Lemma count_true_correct (js : list nat) (pred : list (list nat))
    (target : list Z) :
  Forall2 (λ r t,
    count_true ((λ j, Z.of_nat (nth j r 0%nat) =? t) <$> js) = 1%nat)
    pred target →
  count_true (concat (map (λ j,
    zip_with (λ p t, Z.of_nat p =? t) (map (λ r, nth j r 0%nat) pred) target)
    js)) = length pred.
Proof.
  induction 1 as [|r t pred target Hrt _ IH]; simpl.
  - induction js as [|j js IHjs]; [done|]. simpl. exact IHjs.
  - rewrite (count_true_columns
      (λ j, Z.of_nat (nth j r 0%nat) =? t)
      (λ j, zip_with (λ p t, Z.of_nat p =? t)
              (map (λ r, nth j r 0%nat) pred) target)).
    by rewrite Hrt, IH.
Qed.

Lemma count_true_seq (t : Z) (n : nat) :
  0 <= t →
  count_true ((λ p, Z.of_nat p =? t) <$> seq 0 n)
  = if t <? Z.of_nat n then 1%nat else 0%nat.
Proof.
  intros Ht. induction n as [|n IH].
  - destruct (Z.ltb_spec t (Z.of_nat 0)); [lia|reflexivity].
  - rewrite seq_S, fmap_app, count_true_app, IH. csimpl.
    rewrite count_true_cons.
    destruct (Z.ltb_spec t (Z.of_nat n)), (Z.ltb_spec t (Z.of_nat (S n))),
      (Z.eqb_spec (Z.of_nat n) t); try lia; reflexivity.
Qed.

Lemma map_nth_seq {A} (d : A) (l : list A) :
  (λ j, nth j l d) <$> seq 0 (length l) = l.
Proof.
  apply list_eq. intros i. rewrite list_lookup_fmap.
  destruct (decide (i < length l)%nat) as [Hi|Hi].
  - rewrite lookup_seq_lt by done. simpl.
    destruct (nth_lookup_or_length l i d) as [H|H]; [|lia].
    destruct (l !! i) eqn:E; [|by apply lookup_lt_is_Some_2 in Hi as [? ?]; congruence].
    by rewrite (nth_lookup_Some _ _ _ _ E).
  - rewrite lookup_seq_ge by lia. simpl. symmetry. apply lookup_ge_None. lia.
Qed.

(** The slice [correct[:k]] of the transposed predictions is made of the
    columns [0 .. k-1]. *)
Lemma slice_transpose {B} (F : nat → B) (maxk : nat) (k : Z) :
  0 <= k <= Z.of_nat maxk →
  py_slice_to (map F (seq 0 maxk)) k = map F (seq 0 (Z.to_nat k)).
Proof.
  intros Hk. unfold py_slice_to.
  destruct (Z.ltb_spec k 0) as [?|_]; [lia|].
  change (take (Z.to_nat k) (map F (seq 0 maxk))) with
    (take (Z.to_nat k) (F <$> seq 0 maxk)).
  rewrite <- fmap_take, take_seq. do 2 f_equal. lia.
Qed.

Section AccuracyFacts.
Context `{TopK} (Hspec : topk_contract).

Lemma hit_topC (row : list Q) (t : Z) :
  0 <= t < Z.of_nat (length row) →
  count_true ((λ j, Z.of_nat (nth j (topk_row row (length row)) 0%nat) =? t)
              <$> seq 0 (length row)) = 1%nat.
Proof.
  intros Ht.
  pose proof (length_topk_row Hspec row (length row) ltac:(lia)) as Hlen.
  pose proof (topk_row_full Hspec row) as Hperm.
  set (R := topk_row row (length row)) in *. rewrite <- Hlen.
  rewrite (list_fmap_compose (λ j, nth j R 0%nat) (λ p, Z.of_nat p =? t)).
  rewrite map_nth_seq, (count_true_perm _ _ _ Hperm).
  rewrite count_true_seq by lia.
  by destruct (Z.ltb_spec t (Z.of_nat (length row))); [|lia].
Qed.

Lemma hit_top1 (row : list Q) (t : Z) (k : nat) :
  (0 < k ≤ length row)%nat → strict_top1 row t →
  count_true ((λ j, Z.of_nat (nth j (topk_row row k) 0%nat) =? t) <$> seq 0 1)
  = 1%nat.
Proof.
  intros Hk Htop.
  destruct (topk_row_head Hspec row t k Hk Htop) as (l & -> & Hhd).
  destruct (topk_row row k) as [|p ps]; [done|]. injection Hhd as ->.
  simpl. rewrite count_true_cons, Z.eqb_refl. reflexivity.
Qed.

(** The loop body of [accuracy] for one requested [k] on a well-formed
    call: the view raises when the slice has two rows or more and the batch
    two examples or more, and otherwise the body gives the number of hits in
    the first [k] columns of predictions times 100 / N. *)
Lemma accuracy_cases output target topk :
  target ≠ [] → length target = length (rows output) →
  topk ≠ [] → Forall (λ k, 1 <= k <= Z.of_nat (ncols output)) topk →
  ∃ maxk, py_max topk = Ok maxk ∧ 1 <= maxk <= Z.of_nat (ncols output) ∧
    Forall (λ k, k <= maxk) topk ∧
    accuracy output target topk
    = mapM (λ k,
        if decide (2 <= k ∧ (2 ≤ length target)%nat) then Raise RuntimeError
        else Ok
          (inject_Z (Z.of_nat (count_true (concat (map (λ j,
             zip_with (λ p t, Z.of_nat p =? t)
               (map (λ r, nth j r 0%nat)
                  (map (λ row, topk_row row (Z.to_nat maxk)) (rows output)))
               target) (seq 0 (Z.to_nat k))))))
           * (100 / inject_Z (Z.of_nat (length target))))%Q) topk.
Proof.
  intros Hne Hlen Hk Hks.
  destruct (py_max_bounds topk 1 (Z.of_nat (ncols output)) Hk Hks)
    as (maxk & Hmax & Hb & Hle).
  exists maxk. split; [done|]. split; [done|]. split; [done|].
  unfold accuracy. rewrite Hmax. simpl. unfold torch_topk.
  destruct (Z.ltb_spec maxk 0) as [?|_]; [lia|].
  destruct (Z.ltb_spec (Z.of_nat (ncols output)) maxk) as [?|_]; [lia|].
  simpl. unfold expand_row. rewrite decide_True by done. simpl.
  apply mapM_ext_in. intros k Hin.
  rewrite Forall_forall in Hle, Hks.
  specialize (Hle k Hin). specialize (Hks k Hin).
  unfold transpose. rewrite map_map.
  rewrite (slice_transpose _ (Z.to_nat maxk) k) by lia.
  unfold view_flat. rewrite length_map, length_seq, <- Hlen.
  destruct (decide (2 ≤ Z.to_nat k ∧ 2 ≤ length target)%nat) as [Hv|Hv].
  - rewrite decide_True by lia. done.
  - rewrite decide_False by lia. simpl. rewrite py_div_nonzero; [done|].
    destruct target; [done|]. simpl length. intros Hz.
    unfold Qeq in Hz. simpl in Hz. lia.
Qed.

(** The value of [accuracy] on a well-formed call that asks for the top
    prediction only or has a batch of one example. *)
Lemma accuracy_value output target topk :
  target ≠ [] → length target = length (rows output) →
  topk ≠ [] → Forall (λ k, 1 <= k <= Z.of_nat (ncols output)) topk →
  length target = 1%nat ∨ Forall (λ k, k = 1) topk →
  ∃ maxk, py_max topk = Ok maxk ∧ 1 <= maxk <= Z.of_nat (ncols output) ∧
    Forall (λ k, k <= maxk) topk ∧
    accuracy output target topk
    = Ok ((λ k,
        inject_Z (Z.of_nat (count_true (concat (map (λ j,
          zip_with (λ p t, Z.of_nat p =? t)
            (map (λ r, nth j r 0%nat)
               (map (λ row, topk_row row (Z.to_nat maxk)) (rows output)))
            target) (seq 0 (Z.to_nat k))))))
        * (100 / inject_Z (Z.of_nat (length target))))%Q <$> topk).
Proof.
  intros Hne Hlen Hk Hks Hpass.
  destruct (accuracy_cases output target topk Hne Hlen Hk Hks)
    as (maxk & Hmax & Hb & Hle & ->).
  exists maxk. split; [done|]. split; [done|]. split; [done|].
  apply mapM_Ok. intros k Hin. rewrite decide_False; [done|].
  intros [H2 HN]. destruct Hpass as [H1|Hall]; [lia|].
  rewrite Forall_forall in Hall. specialize (Hall k Hin). lia.
Qed.

(** A well-formed call that asks for two predictions or more on a batch of
    two examples or more raises RuntimeError, at [view(-1)]. *)
Lemma accuracy_view_error output target topk :
  length target = length (rows output) → (2 ≤ length target)%nat →
  topk ≠ [] → Forall (λ k, 1 <= k <= Z.of_nat (ncols output)) topk →
  Exists (λ k, 2 <= k) topk →
  accuracy output target topk = Raise RuntimeError.
Proof.
  intros Hlen HN Hk Hks Hex.
  assert (target ≠ []) as Hne by (intros ->; simpl in HN; lia).
  destruct (accuracy_cases output target topk Hne Hlen Hk Hks)
    as (maxk & Hmax & Hb & Hle & ->).
  apply mapM_Raise.
  - intros k _. case_decide; eauto.
  - apply Exists_exists in Hex as (k & Hin & Hk2). exists k.
    split; [done|]. by rewrite decide_True.
Qed.

(** C7 fails on the code. On a non-empty batch of N rows of C scores with
    labels in [0, C) and requested values [topk] between 1 and C:
    a request for two predictions or more on a batch of two examples or
    more raises RuntimeError at [correct[:k].view(-1)], so for N >= 2 and
    K = C >= 2 no number is returned at all. The remaining calls (top
    prediction only, or a batch of one example) return one number per
    requested value, in order; there the number for K = C is 100 whatever
    the scores are, and the number for K = 1 is 100 when every label is the
    single highest-scoring class of its row. *)
Theorem accuracy_top1_topC output target topk :
  wf_matrix output → target ≠ [] → length target = length (rows output) →
  Forall (λ l, 0 <= l < Z.of_nat (ncols output)) target →
  topk ≠ [] → Forall (λ k, 1 <= k <= Z.of_nat (ncols output)) topk →
  ((2 ≤ length target)%nat → Exists (λ k, 2 <= k) topk →
   accuracy output target topk = Raise RuntimeError) ∧
  (length target = 1%nat ∨ Forall (λ k, k = 1) topk →
   ∃ res, accuracy output target topk = Ok res ∧
     Forall2 (λ k q,
       (k = Z.of_nat (ncols output) → (q == 100)%Q) ∧
       (k = 1 → Forall2 strict_top1 (rows output) target → (q == 100)%Q))
       topk res).
Proof.
  intros Hwf Hne Hlen Hlabels Hk Hks.
  split; [intros HN Hex; by apply accuracy_view_error|]. intros Hpass.
  destruct (accuracy_value output target topk Hne Hlen Hk Hks Hpass)
    as (maxk & Hmax & Hb & Hle & ->).
  eexists. split; [reflexivity|].
  apply Forall2_fmap_r, Forall_Forall2_diag, Forall_forall. intros k Hin.
  rewrite Forall_forall in Hle. specialize (Hle k Hin).
  assert (∀ n : nat, n = length target →
    (inject_Z (Z.of_nat n) * (100 / inject_Z (Z.of_nat (length target)))
     == 100)%Q) as Hfull.
  { intros n ->. field. destruct target; [done|]. simpl length.
    intros Hz. unfold Qeq in Hz. simpl in Hz. lia. }
  unfold wf_matrix in Hwf. rewrite Forall_forall in Hwf.
  rewrite Forall_forall in Hlabels.
  split.
  - intros ->. apply Hfull. assert (maxk = Z.of_nat (ncols output)) as -> by lia.
    rewrite Nat2Z.id, count_true_correct; [by rewrite !length_map|].
    apply Forall2_fmap_l, Forall2_same_length_lookup. split; [done|].
    intros i row t Hrow Ht.
    assert (length row = ncols output) as Hr
      by (by eapply Hwf, list_elem_of_lookup_2).
    assert (0 <= t < Z.of_nat (ncols output)) as Hl
      by (by eapply Hlabels, list_elem_of_lookup_2).
    rewrite <- Hr in Hl |- *. by apply hit_topC.
  - intros -> Htop. apply Hfull.
    rewrite count_true_correct; [by rewrite !length_map|].
    apply Forall2_fmap_l, Forall2_same_length_lookup.
    split; [done|].
    intros i row t Hrow Ht.
    assert (length row = ncols output) as Hr
      by (by eapply Hwf, list_elem_of_lookup_2).
    apply hit_top1; [lia|]. by eapply Forall2_lookup_lr.
Qed.
End AccuracyFacts.

(** The batch of the specification with the labels 1, 0: every label is the
    single highest-scoring class and K = C = 2. The call raises; asking for
    the top prediction alone gives 100. *)
Example accuracy_spec_example :
  accuracy example_scores [1; 0] [2] = Raise RuntimeError ∧
  accuracy example_scores [1; 0] [1; 2] = Raise RuntimeError ∧
  accuracy example_scores [1; 0] [1] = Ok [200 # 2]%Q ∧
  accuracy example_scores [1; 1] [1] = Ok [100 # 2]%Q ∧
  accuracy (mkMatrix 3 [[1 # 10; 9 # 10; 0]]%Q) [0] [1; 3; 2]
  = Ok [0; 100; 100]%Q ∧
  accuracy example_scores3 [1; 2; 0] [4] = Raise RuntimeError ∧
  accuracy example_scores3 [] [1] = Raise RuntimeError ∧
  accuracy (mkMatrix 3 []) [] [1] = Raise ZeroDivisionError.
Proof. repeat split; vm_compute; reflexivity. Qed.

Lemma accuracy_top1_topC_witness :
  wf_matrix example_scores_top1 ∧
  [1; 0; 0] ≠ [] ∧
  length [1; 0; 0] = length (rows example_scores_top1) ∧
  Forall (λ l, 0 <= l < Z.of_nat (ncols example_scores_top1)) [1; 0; 0] ∧
  [1; 2] ≠ [] ∧
  Forall (λ k, 1 <= k <= Z.of_nat (ncols example_scores_top1)) [1; 2] ∧
  ((2 ≤ length [1; 0; 0])%nat → Exists (λ k, 2 <= k) [1; 2] →
   accuracy example_scores_top1 [1; 0; 0] [1; 2] = Raise RuntimeError) ∧
  (length [1; 0; 0] = 1%nat ∨ Forall (λ k, k = 1) [1; 2] →
   ∃ res, accuracy example_scores_top1 [1; 0; 0] [1; 2] = Ok res ∧
     Forall2 (λ k q,
       (k = Z.of_nat (ncols example_scores_top1) → (q == 100)%Q) ∧
       (k = 1 → Forall2 strict_top1 (rows example_scores_top1) [1; 0; 0] →
        (q == 100)%Q))
       [1; 2] res).
Proof.
  assert (wf_matrix example_scores_top1) as H1 by (repeat constructor).
  assert ([1; 0; 0] ≠ @nil Z) as H2 by discriminate.
  assert (length [1; 0; 0] = length (rows example_scores_top1)) as H3
    by reflexivity.
  assert (Forall (λ l, 0 <= l < Z.of_nat (ncols example_scores_top1))
            [1; 0; 0]) as H4 by (repeat constructor; simpl; lia).
  assert ([1; 2] ≠ @nil Z) as H5 by discriminate.
  assert (Forall (λ k, 1 <= k <= Z.of_nat (ncols example_scores_top1))
            [1; 2]) as H6 by (repeat constructor; simpl; lia).
  repeat (split; [assumption|]).
  exact (accuracy_top1_topC stable_topk_contract example_scores_top1
           [1; 0; 0] [1; 2] H1 H2 H3 H4 H5 H6).
Defined.

(** ** label_smoothing *)

Lemma fold_left_max_ge (xs : list Z) (x : Z) :
  x <= fold_left Z.max xs x ∧ Forall (λ k, k <= fold_left Z.max xs x) xs.
Proof.
  revert x. induction xs as [|y xs IH]; intros x; simpl; [split; [lia|constructor]|].
  destruct (IH (Z.max x y)) as [Hge Hall].
  split; [lia|]. constructor; [lia|done].
Qed.

Lemma fold_left_min_le (xs : list Z) (x : Z) :
  fold_left Z.min xs x <= x ∧ Forall (λ k, fold_left Z.min xs x <= k) xs.
Proof.
  revert x. induction xs as [|y xs IH]; intros x; simpl; [split; [lia|constructor]|].
  destruct (IH (Z.min x y)) as [Hle Hall].
  split; [lia|]. constructor; [lia|done].
Qed.

Section LabelSmoothingFacts.
Local Open Scope Q_scope.

Lemma Qsum_app xs ys : Qsum (xs ++ ys) == Qsum xs + Qsum ys.
Proof.
  induction xs as [|x xs IH]; simpl; [ring|]. rewrite IH. ring.
Qed.

Lemma Qsum_one_hot_row (c : nat) (label : Z) :
  (0 <= label)%Z →
  Qsum (one_hot_row c label) == if (label <? Z.of_nat c)%Z then 1 else 0.
Proof.
  intros Hl. unfold one_hot_row. induction c as [|c IH].
  - destruct (Z.ltb_spec label (Z.of_nat 0)); [lia|reflexivity].
  - rewrite seq_S, map_app, Qsum_app, IH. simpl.
    destruct (Z.ltb_spec label (Z.of_nat c)),
      (Z.ltb_spec label (Z.of_nat (S c))),
      (Z.eqb_spec (Z.of_nat c) label); try lia; ring.
Qed.

Lemma length_one_hot_row c label : length (one_hot_row c label) = c.
Proof. unfold one_hot_row. by rewrite length_map, length_seq. Qed.

(** What [F.one_hot] returns is a well-formed batch of distributions. *)
Lemma one_hot_valid labels num_classes m :
  one_hot labels num_classes = Ok m →
  wf_tensor (Float2 m) ∧ sums_to_one (Float2 m).
Proof.
  unfold one_hot, wf_tensor, sums_to_one. intros Hm.
  destruct labels as [|x xs].
  { destruct (num_classes <=? 0)%Z; [done|]. injection Hm as <-.
    split; constructor. }
  destruct (Z.ltb_spec (fold_left Z.min xs x) 0) as [|Hmin]; [done|].
  destruct (fold_left_min_le xs x) as [Hmx Hmxs].
  destruct (fold_left_max_ge xs x) as [HMx HMxs].
  assert (∀ c : nat, (fold_left Z.max xs x < Z.of_nat c)%Z →
    Forall (λ r, Z.of_nat (length r) = Z.of_nat c)
      (map (one_hot_row c) (x :: xs)) ∧
    Forall (λ r, Qsum r == 1) (map (one_hot_row c) (x :: xs))) as Hrows.
  { intros c Hc. rewrite !Forall_map. split.
    - apply Forall_forall. intros l _. simpl. by rewrite length_one_hot_row.
    - assert (Forall (λ k, (k <= fold_left Z.max xs x)%Z) (x :: xs)) as HM
        by (by constructor).
      assert (Forall (λ k, (fold_left Z.min xs x <= k)%Z) (x :: xs)) as Hmn
        by (by constructor).
      rewrite Forall_forall in HM. rewrite Forall_forall in Hmn.
      apply Forall_forall. intros l Hin. simpl.
      specialize (HM l Hin). specialize (Hmn l Hin). simpl in HM, Hmn.
      rewrite Qsum_one_hot_row by lia.
      destruct (Z.ltb_spec l (Z.of_nat c)); [reflexivity|lia]. }
  destruct (Z.eqb_spec num_classes (-1)) as [_|_].
  - injection Hm as <-. simpl. apply Hrows. lia.
  - destruct (Z.ltb_spec (fold_left Z.max xs x) num_classes) as [?|?]; [|done].
    injection Hm as <-. simpl. apply Hrows. lia.
Qed.

(** One row through the smoothing: the scaled row plus the uniform row. *)
Lemma Qsum_smooth_row (ts uw : Q) (r : list Q) :
  Qsum (zip_with Qplus (map (λ x, x * ts) r)
          (map (λ o, o * uw) (map (λ _, 1) r)))
  == ts * Qsum r + inject_Z (Z.of_nat (length r)) * uw.
Proof.
  induction r as [|x r IH]; [simpl; ring|].
  cbn [map zip_with Qsum foldr length]. fold (Qsum r) in *.
  change (foldr Qplus 0 ?l) with (Qsum l). rewrite IH.
  rewrite Nat2Z.inj_succ, <- Z.add_1_r, inject_Z_plus. ring.
Qed.

Lemma smooth_row_id (ts uw : Q) (r : list Q) :
  ts == 1 → uw == 0 →
  Forall2 Qeq (zip_with Qplus (map (λ x, x * ts) r)
                 (map (λ o, o * uw) (map (λ _, 1) r))) r.
Proof.
  intros Hts Huw. induction r as [|x r IH]; [constructor|].
  simpl. constructor; [|done]. rewrite Hts, Huw. ring.
Qed.

Lemma length_smooth_row (ts uw : Q) (r : list Q) :
  length (zip_with Qplus (map (λ x, x * ts) r)
            (map (λ o, o * uw) (map (λ _, 1) r))) = length r.
Proof. rewrite length_zip_with, !length_map. lia. Qed.

Lemma smooth_rows (ts uw : Q) (rs : list (list Q)) :
  zip_with (zip_with Qplus) (map (map (λ x, x * ts)) rs)
    (map (map (λ o, o * uw)) (map (map (λ _, 1)) rs))
  = map (λ r, zip_with Qplus (map (λ x, x * ts) r)
                (map (λ o, o * uw) (map (λ _, 1) r))) rs.
Proof. induction rs as [|r rs IH]; [done|]. simpl. by rewrite IH. Qed.

(** The smoothing of a float tensor, once the division went through. *)
Lemma smooth_tensor (ts uw : Q) (t : FloatTensor) :
  ∃ out,
    tzip Qplus (tmap (λ x, x * ts) t) (tmap (λ o, o * uw) (tmap (λ _, 1) t))
    = Ok out ∧
    shape_last out = shape_last t ∧
    dists out = map (λ r, zip_with Qplus (map (λ x, x * ts) r)
                            (map (λ o, o * uw) (map (λ _, 1) r))) (dists t).
Proof.
  destruct t as [xs|m]; simpl.
  - rewrite decide_True by (by rewrite !length_map).
    eexists. split; [reflexivity|]. split; [|done].
    simpl. by rewrite length_smooth_row.
  - rewrite decide_True by (by rewrite !length_map).
    eexists. split; [reflexivity|]. split; [done|]. apply smooth_rows.
Qed.

(** C8. For a target that is a tensor of class indices or a float tensor of
    distributions over C >= 2 classes, and for every epsilon (in [0, 1) or
    not), [label_smoothing] returns; with the uniform weight and the target
    scaling it computes, target_scaling + C * uniform_weight = 1; every
    distribution of the output sums to 1; and with epsilon = 0 the output is
    the float target itself (the one-hot tensor for class indices). *)
Theorem label_smoothing_sums_to_one target (epsilon : Q) (num_classes : Z) t :
  float_target target num_classes = Ok t →
  valid_target target →
  (2 <= shape_last t)%Z →
  (1 - epsilon - epsilon / inject_Z (shape_last t - 1))
  + inject_Z (shape_last t) * (epsilon / inject_Z (shape_last t - 1)) == 1 ∧
  ∃ out, label_smoothing target epsilon num_classes = Ok out ∧
    wf_tensor out ∧ sums_to_one out ∧
    (epsilon == 0 → tensor_equiv out t).
Proof.
  intros Ht Hvalid Hc.
  assert (wf_tensor t ∧ sums_to_one t) as [Hwf Hsum].
  { destruct target as [labels|t']; simpl in Ht.
    - destruct (one_hot labels num_classes) as [m|e] eqn:E; [|done].
      injection Ht as <-. by eapply one_hot_valid.
    - by injection Ht as <-. }
  set (c := shape_last t) in *.
  assert (¬ inject_Z (c - 1) == 0) as Hnz.
  { unfold Qeq. simpl. lia. }
  assert (inject_Z (c - 1) == inject_Z c - 1) as Hc1.
  { unfold Zminus. rewrite inject_Z_plus. reflexivity. }
  assert ((1 - epsilon - epsilon / inject_Z (c - 1))
          + inject_Z c * (epsilon / inject_Z (c - 1)) == 1) as Hid.
  { rewrite Hc1 in Hnz |- *. field. exact Hnz. }
  split; [exact Hid|].
  unfold label_smoothing. rewrite Ht. simpl. fold c.
  rewrite (py_div_nonzero _ _ Hnz). simpl.
  destruct (smooth_tensor (1 - epsilon - epsilon / inject_Z (c - 1))
              (epsilon / inject_Z (c - 1)) t) as (out & -> & Hshape & Hd).
  exists out. split; [done|].
  unfold wf_tensor, sums_to_one, tensor_equiv in *. rewrite Hd, Hshape.
  fold c in Hwf |- *. split; [|split].
  - rewrite Forall_map. eapply Forall_impl; [exact Hwf|].
    intros r Hr. simpl. by rewrite length_smooth_row.
  - rewrite Forall_map. rewrite Forall_forall in Hwf. rewrite Forall_forall in Hsum.
    apply Forall_forall. intros r Hin. simpl.
    rewrite Qsum_smooth_row, (Hsum r Hin), (Hwf r Hin).
    etransitivity; [|exact Hid]. ring.
  - intros Heps. split; [done|].
    change (map ?f (dists t)) with (f <$> dists t).
    apply Forall2_fmap_l, Forall_Forall2_diag, Forall_forall. intros r _.
    apply smooth_row_id.
    + rewrite Heps. field. exact Hnz.
    + rewrite Heps. field. exact Hnz.
Qed.
End LabelSmoothingFacts.

Example label_smoothing_example :
  label_smoothing (Int64_1 [0; 2]) (1 # 10) (-1)
  = Ok (Float2 (mkMatrix 3 [[3600 # 4000; 200 # 4000; 200 # 4000];
                            [200 # 4000; 200 # 4000; 3600 # 4000]]%Q)) ∧
  label_smoothing (Int64_1 [0; 0]) (1 # 10) (-1) = Raise ZeroDivisionError ∧
  label_smoothing (Int64_1 [0; 2]) (1 # 10) 2 = Raise RuntimeError.
Proof. repeat split; vm_compute; reflexivity. Qed.

Lemma label_smoothing_sums_to_one_witness :
  float_target example_soft (-1)
  = Ok (Float2 (mkMatrix 3 [[1 # 2; 1 # 4; 1 # 4]; [0; 1; 0]]%Q)) ∧
  valid_target example_soft ∧
  ∃ out, label_smoothing example_soft (1 # 10) (-1) = Ok out ∧
    wf_tensor out ∧ sums_to_one out ∧
    ((1 # 10 == 0)%Q →
     tensor_equiv out
       (Float2 (mkMatrix 3 [[1 # 2; 1 # 4; 1 # 4]; [0; 1; 0]]%Q))).
Proof.
  assert (valid_target example_soft) as Hv.
  { split; repeat constructor. }
  split; [reflexivity|]. split; [exact Hv|].
  refine (proj2 (label_smoothing_sums_to_one example_soft (1 # 10) (-1)
                   _ eq_refl Hv _)).
  simpl. lia.
Defined.

(** ** cross_entropy_loss *)

Lemma broadcast_rev_same (a : list nat) : broadcast_rev a a = Ok a.
Proof.
  induction a as [|x a IH]; [done|]. simpl. rewrite IH. simpl.
  by rewrite decide_True.
Qed.

Lemma broadcast_same (a : list nat) : broadcast a a = Ok a.
Proof.
  unfold broadcast. rewrite broadcast_rev_same. simpl.
  by rewrite reverse_involutive.
Qed.

(** On shapes: two N x C tensors and a dimension of a 2-D tensor give the
    loss terms a value, of shape [C] or [N]. *)
Lemma loss_terms_shape (n c : nat) (axis : Z) :
  -2 <= axis < 2 →
  ∃ s, @loss_terms ShapeTorch [n; c] [n; c] axis = Ok s.
Proof.
  intros Haxis.
  assert (axis = -2 ∨ axis = -1 ∨ axis = 0 ∨ axis = 1) as Hcases by lia.
  unfold loss_terms.
  destruct Hcases as [-> | [-> | [-> | ->]]]; simpl;
    rewrite broadcast_same; simpl; by eexists.
Qed.

(** C9, as amended. Whatever the tensor library, a reduction other than
    "mean" makes [cross_entropy_loss] raise, and with "mean" the function
    raises nothing of its own: it returns the mean of the loss terms when
    these have a value and passes on the error of the tensor expression
    otherwise. On shapes, the loss terms of two N x C tensors along a
    dimension of theirs have a value, so the call with "mean" returns a
    scalar. *)
Theorem cross_entropy_loss_reduction :
  (∀ (T : Torch) (logits probs : tensor) (axis : Z) (reduction : string),
     (reduction ≠ "mean" →
      raises (cross_entropy_loss logits probs axis reduction)) ∧
     (reduction = "mean" →
      cross_entropy_loss logits probs axis reduction
      = torch_mean <$> loss_terms logits probs axis)) ∧
  (∀ (n c : nat) (axis : Z), -2 <= axis < 2 →
     @cross_entropy_loss ShapeTorch [n; c] [n; c] axis "mean" = Ok []).
Proof.
  split.
  - intros T logits probs axis reduction. unfold cross_entropy_loss. split.
    + intros Hne. apply String.eqb_neq in Hne. rewrite Hne.
      destruct (loss_terms logits probs axis) as [tmp|e]; by eexists.
    + intros ->. by destruct (loss_terms logits probs axis).
  - intros n c axis Haxis. unfold cross_entropy_loss.
    by destruct (loss_terms_shape n c axis Haxis) as (s & ->).
Qed.

(** C9 as stated fails: with the reduction "mean", a target of another
    width than the logits, or a dimension the tensors do not have, makes the
    call raise. *)
Lemma cross_entropy_loss_mean_raises :
  @cross_entropy_loss ShapeTorch [2; 3]%nat [2; 4]%nat (-1) "mean"
  = Raise RuntimeError ∧
  @cross_entropy_loss ShapeTorch [2; 3]%nat [2; 3]%nat 2 "mean"
  = Raise IndexError ∧
  raises (@cross_entropy_loss ShapeTorch [2; 3]%nat [2; 4]%nat (-1) "mean").
Proof. split; [reflexivity|]. split; [reflexivity|]. by eexists. Qed.

Lemma cross_entropy_loss_reduction_witness :
  ("sum" ≠ "mean" ∧
   raises (@cross_entropy_loss ShapeTorch [2; 3]%nat [2; 3]%nat (-1) "sum")) ∧
  ("mean" = "mean" ∧
   @cross_entropy_loss ShapeTorch [2; 3]%nat [2; 3]%nat (-1) "mean"
   = torch_mean <$> @loss_terms ShapeTorch [2; 3]%nat [2; 3]%nat (-1)) ∧
  (-2 <= -1 < 2 ∧
   @cross_entropy_loss ShapeTorch [2; 3]%nat [2; 3]%nat (-1) "mean" = Ok []).
Proof.
  assert ("sum" ≠ "mean") as Hne by discriminate.
  assert (-2 <= -1 < 2) as Haxis by lia.
  destruct cross_entropy_loss_reduction as [Hany Hshape].
  destruct (Hany ShapeTorch [2; 3]%nat [2; 3]%nat (-1) "sum") as [Hsum _].
  destruct (Hany ShapeTorch [2; 3]%nat [2; 3]%nat (-1) "mean") as [_ Hmean].
  split; [split; [exact Hne|exact (Hsum Hne)]|].
  split; [split; [reflexivity|exact (Hmean eq_refl)]|].
  split; [exact Haxis|exact (Hshape 2%nat 3%nat (-1) Haxis)].
Defined.

(** * Further properties *)

(** ** ConcatDataset *)

Section ConcatDatasetMore.
Context {A : Type}.
Implicit Types (self : list (Dataset A)) (d : Dataset A) (idx : Z).
Import ConcatDataset.

Lemma offset_nonneg self (i : nat) : 0 <= offset self i.
Proof. rewrite <- (offset_0 self). apply offset_mono. lia. Qed.

Lemma len_nonneg_all self : 0 <= __len__ self.
Proof. rewrite <- (offset_0 self). apply offset_le_len. Qed.

(** Any position whose range holds the index is the one the loop finds. *)
Lemma getitem_at self (k : nat) d idx :
  self !! k = Some d →
  offset self k <= idx < offset self k + len d →
  __getitem__ self idx = Some (ds_getitem d (idx - offset self k)).
Proof.
  intros Hk Hr.
  pose proof (offset_nonneg self k) as H0.
  pose proof (offset_le_len self (S k)) as Hle.
  rewrite (offset_S _ _ _ Hk) in Hle.
  destruct (getitem_in_range self idx) as (i & d0 & Hi & Hr0 & Hget); [lia|].
  destruct (lt_eq_lt_dec i k) as [[Hlt|Heq]|Hgt].
  - destruct (offset_ranges_disjoint self k i d d0 idx); [done..|lia|lia].
  - subst i. rewrite Hk in Hi. by injection Hi as <-.
  - destruct (offset_ranges_disjoint self i k d0 d idx); [done..|lia|lia].
Qed.

(** X1. The loop of [__getitem__] exits for every list of datasets and
    every index; over no dataset at all every access raises IndexError and
    the length is 0. *)
Theorem ConcatDataset_getitem_total :
  (∀ self idx, ∃ r, __getitem__ self idx = Some r) ∧
  (∀ idx, __getitem__ (A:=A) [] idx = Some (Raise IndexError)) ∧
  __len__ (A:=A) [] = 0.
Proof.
  split; [|split; [|done]].
  - intros self idx. destruct (getitem_terminates self idx) as [r Hr]. by exists r.
  - intros idx. unfold __getitem__. simpl. unfold py_getitem. simpl.
    by destruct (0 <? 0), (0 <=? 0).
Qed.

(** X2. A ConcatDataset over one dataset is that dataset: same length, and
    the same result for every index, in range or not. *)
Theorem ConcatDataset_singleton d idx :
  __len__ [d] = len d ∧ __getitem__ [d] idx = Some (ds_getitem d idx).
Proof.
  split.
  - unfold __len__. simpl. rewrite py_sum_cons, py_sum_nil. lia.
  - unfold __getitem__. simpl.
    by rewrite andb_false_r.
Qed.
End ConcatDatasetMore.

Section ConcatDatasetLists.
Context {A : Type}.
Import ConcatDataset.

Lemma len_list_datasets (ls : list (list A)) :
  __len__ (list_dataset <$> ls) = Z.of_nat (length (concat ls)).
Proof.
  unfold __len__. induction ls as [|l ls IH]; [done|].
  csimpl. rewrite py_sum_cons, IH, length_app. unfold len. simpl. lia.
Qed.

Lemma offset_list_datasets (ls : list (list A)) (i : nat) :
  offset (list_dataset <$> ls) i = Z.of_nat (length (concat (take i ls))).
Proof.
  unfold offset. rewrite <- fmap_take. apply len_list_datasets.
Qed.

Lemma concat_split_at {B} (xss : list (list B)) (i : nat) (xs : list B) :
  xss !! i = Some xs →
  concat xss = concat (take i xss) ++ xs ++ concat (drop (S i) xss).
Proof.
  intros Hi.
  transitivity (concat (take i xss ++ xs :: drop (S i) xss));
    [by rewrite take_drop_middle|by rewrite concat_app].
Qed.

Lemma lookup_concat_at {B} (xss : list (list B)) (i j : nat) (xs : list B) :
  xss !! i = Some xs → (j < length xs)%nat →
  concat xss !! (length (concat (take i xss)) + j)%nat = xs !! j.
Proof.
  intros Hi Hj. rewrite (concat_split_at xss i xs Hi).
  rewrite lookup_app_r by lia.
  replace (length (concat (take i xss)) + j - length (concat (take i xss)))%nat
    with j by lia.
  by rewrite lookup_app_l.
Qed.

Lemma take_concat_at {B} (xss : list (list B)) (i j : nat) (xs : list B) :
  xss !! i = Some xs → (j ≤ length xs)%nat →
  take (length (concat (take i xss)) + j) (concat xss)
  = concat (take i xss) ++ take j xs.
Proof.
  intros Hi Hj. rewrite (concat_split_at xss i xs Hi).
  rewrite take_app_add. f_equal. by apply take_app_le.
Qed.

(** X3. Over Python lists, a ConcatDataset is the concatenated list: its
    length is the length of the concatenation and, for every index that is
    not negative, the access gives what indexing the concatenation gives,
    IndexError past the end included. *)
Theorem ConcatDataset_of_lists (ls : list (list A)) (idx : Z) :
  0 <= idx →
  __len__ (list_dataset <$> ls) = Z.of_nat (length (concat ls)) ∧
  __getitem__ (list_dataset <$> ls) idx = Some (py_getitem (concat ls) idx).
Proof.
  intros Hidx. pose proof (len_list_datasets ls) as Hlen. split; [done|].
  destruct (decide (idx < __len__ (list_dataset <$> ls))) as [Hin|Hout].
  - destruct (getitem_in_range (list_dataset <$> ls) idx) as
      (i & d & Hi & Hr & ->); [lia|].
    rewrite list_lookup_fmap in Hi.
    destruct (ls !! i) as [l|] eqn:Hl; [|done]. injection Hi as <-.
    rewrite offset_list_datasets in Hr |- *. unfold len in Hr. simpl in Hr |- *.
    set (n := length (concat (take i ls))) in *.
    destruct (lookup_lt_is_Some_2 l (Z.to_nat (idx - Z.of_nat n)) ltac:(lia))
      as [x Hx].
    set (j := Z.to_nat (idx - Z.of_nat n)) in *.
    assert (idx - Z.of_nat n = Z.of_nat j) as Hj by lia.
    rewrite Hj, (py_getitem_lookup _ _ _ Hx). f_equal. symmetry.
    assert (idx = Z.of_nat (n + j)) as Hnj by lia.
    rewrite Hnj. apply py_getitem_lookup.
    unfold n. rewrite (lookup_concat_at ls i _ l Hl) by lia. done.
  - rewrite (py_getitem_ge (concat ls)) by lia.
    destruct (last (list_dataset <$> ls)) as [dl|] eqn:Hlast.
    + destruct (getitem_past_end _ idx dl Hlast ltac:(lia)) as [Hge ->].
      rewrite fmap_last in Hlast.
      destruct (last ls) as [l|]; [|done]. injection Hlast as <-.
      f_equal. by apply (list_dataset_bounds_checked l).
    + apply last_None in Hlast. apply fmap_nil_inv in Hlast as ->.
      reflexivity.
Qed.
End ConcatDatasetLists.

Lemma ConcatDataset_of_lists_witness :
  0 <= 4 ∧
  ConcatDataset.__len__ (list_dataset <$> [[10; 20]; []; [30]])
  = Z.of_nat (length (concat [[10; 20]; []; [30]])) ∧
  ConcatDataset.__getitem__ (list_dataset <$> [[10; 20]; []; [30]]) 4
  = Some (py_getitem (concat [[10; 20]; []; [30]]) 4).
Proof.
  assert (0 <= 4) as H by lia.
  split; [exact H|].
  exact (ConcatDataset_of_lists [[10; 20]; []; [30]] 4 H).
Defined.

Section ConcatDatasetNested.
Context {A : Type}.
Implicit Types (xs : list (Dataset A)) (xss : list (list (Dataset A))).
Import ConcatDataset.

Lemma len_app xs ys : __len__ (xs ++ ys) = __len__ xs + __len__ ys.
Proof. unfold __len__. by rewrite map_app, py_sum_app. Qed.

Lemma len_concat_dataset xs : len (concat_dataset xs) = __len__ xs.
Proof.
  unfold len. simpl. pose proof (len_nonneg_all xs). lia.
Qed.

Lemma len_nested xss : __len__ (concat_dataset <$> xss) = __len__ (concat xss).
Proof.
  induction xss as [|xs xss IH]; [done|].
  csimpl. rewrite len_app, <- IH. unfold __len__ at 1. csimpl.
  by rewrite py_sum_cons, len_concat_dataset.
Qed.

Lemma offset_nested xss (i : nat) :
  offset (concat_dataset <$> xss) i = __len__ (concat (take i xss)).
Proof. unfold offset. rewrite <- fmap_take. apply len_nested. Qed.

(** X4. ConcatDatasets nest: a ConcatDataset over ConcatDatasets has the
    length of the ConcatDataset over all their datasets in order, and gives
    the same result at every index in range. *)
Theorem ConcatDataset_nested xss (idx : Z) :
  0 <= idx < __len__ (concat xss) →
  __len__ (concat_dataset <$> xss) = __len__ (concat xss) ∧
  __getitem__ (concat_dataset <$> xss) idx = __getitem__ (concat xss) idx.
Proof.
  intros Hidx. pose proof (len_nested xss) as Hlen. split; [done|].
  destruct (getitem_in_range (concat_dataset <$> xss) idx) as
    (i & D & Hi & Hr & ->); [lia|].
  rewrite list_lookup_fmap in Hi.
  destruct (xss !! i) as [xs|] eqn:Hxs; [|done]. injection Hi as <-.
  rewrite len_concat_dataset, offset_nested in Hr. rewrite offset_nested.
  set (off := __len__ (concat (take i xss))) in *.
  destruct (getitem_in_range xs (idx - off)) as (j & d & Hj & Hrj & Hget);
    [lia|].
  simpl. rewrite Hget. simpl.
  pose proof (lookup_lt_Some _ _ _ Hj) as Hjlt.
  assert (offset (concat xss) (length (concat (take i xss)) + j)
          = off + offset xs j) as Hoff.
  { unfold offset at 1. rewrite (take_concat_at xss i j xs Hxs) by lia.
    by rewrite map_app, py_sum_app. }
  rewrite (getitem_at (concat xss) (length (concat (take i xss)) + j) d idx).
  - do 2 f_equal. lia.
  - by rewrite (lookup_concat_at xss i j xs Hxs).
  - lia.
Qed.
End ConcatDatasetNested.

Lemma ConcatDataset_nested_witness :
  0 <= 2 < ConcatDataset.__len__
             (concat [[list_dataset [10; 20]]; [list_dataset []; list_dataset [30]]]) ∧
  ConcatDataset.__len__
    (concat_dataset <$> [[list_dataset [10; 20]]; [list_dataset []; list_dataset [30]]])
  = ConcatDataset.__len__
      (concat [[list_dataset [10; 20]]; [list_dataset []; list_dataset [30]]]) ∧
  ConcatDataset.__getitem__
    (concat_dataset <$> [[list_dataset [10; 20]]; [list_dataset []; list_dataset [30]]]) 2
  = ConcatDataset.__getitem__
      (concat [[list_dataset [10; 20]]; [list_dataset []; list_dataset [30]]]) 2.
Proof.
  assert (0 <= 2 < ConcatDataset.__len__
            (concat [[list_dataset [10; 20]];
                     [list_dataset []; list_dataset [30]]])) as H
    by (change (0 <= 2 < 3); lia).
  split; [exact H|].
  exact (ConcatDataset_nested
           [[list_dataset [10; 20]]; [list_dataset []; list_dataset [30]]] 2 H).
Defined.

(** ** AugmentedDataset *)

Section AugmentedDatasetMore.
Context `{PyAdd V}.
Implicit Types (D A : Dataset (pyval V)).
Implicit Types (self : gmap string (Dataset (pyval V))).
Import AugmentedDataset.

(** X5. On an instance that holds both attributes, the length is the
    dataset's, and where the dataset gives a tuple and the auxiliary
    sequence an item, the access gives the tuple with that item appended as
    its last element. *)
Theorem AugmentedDataset_getitem_appends self D A idx xs y :
  self !! "dataset" = Some D →
  self !! "augmented_data" = Some A →
  ds_getitem D idx = Ok (PyTuple xs) →
  ds_getitem A idx = Ok y →
  __len__ self = Ok (len D) ∧
  __getitem__ self idx = Ok (PyTuple (xs ++ [y])) ∧
  last (xs ++ [y]) = Some y ∧ take (length xs) (xs ++ [y]) = xs.
Proof.
  intros HD HA Hx Hy. unfold __len__, __getitem__, getattr.
  rewrite HD. simpl. rewrite Hx. simpl. rewrite HA. simpl. rewrite Hy. simpl.
  repeat split; [apply last_snoc|apply take_app_length].
Qed.

(** X6. The errors of the two methods. Without the attribute [dataset]
    both raise AttributeError. An error of the dataset's own access comes
    out as it is, before the auxiliary sequence is looked at; then a missing
    [augmented_data] is an AttributeError, and an error of the auxiliary
    access comes out as it is. With both items at hand, an item of the
    dataset that is no tuple decides the outcome by its own [__add__], and
    a Python int raises TypeError. *)
Theorem AugmentedDataset_method_errors self idx :
  (self !! "dataset" = None →
   __len__ self = Raise AttributeError ∧
   __getitem__ self idx = Raise AttributeError) ∧
  (∀ D e, self !! "dataset" = Some D → ds_getitem D idx = Raise e →
   __getitem__ self idx = Raise e) ∧
  (∀ D x, self !! "dataset" = Some D → ds_getitem D idx = Ok x →
   self !! "augmented_data" = None →
   __getitem__ self idx = Raise AttributeError) ∧
  (∀ D A x e, self !! "dataset" = Some D → ds_getitem D idx = Ok x →
   self !! "augmented_data" = Some A → ds_getitem A idx = Raise e →
   __getitem__ self idx = Raise e) ∧
  (∀ D A v y, self !! "dataset" = Some D → ds_getitem D idx = Ok (PyLeaf v) →
   self !! "augmented_data" = Some A → ds_getitem A idx = Ok y →
   __getitem__ self idx = leaf_add_tuple v [y]) ∧
  (∀ (ints : gmap string (Dataset (pyval Z))) (DZ AZ : Dataset (pyval Z)) z y,
   ints !! "dataset" = Some DZ → ds_getitem DZ idx = Ok (PyLeaf z) →
   ints !! "augmented_data" = Some AZ → ds_getitem AZ idx = Ok y →
   __getitem__ ints idx = Raise TypeError).
Proof.
  unfold __len__, __getitem__, getattr.
  split; [by intros ->|].
  split; [intros D e -> Hx; simpl; by rewrite Hx|].
  split; [intros D x -> Hx Ha; simpl; rewrite Hx; simpl; by rewrite Ha|].
  split; [|split].
  - intros D A x e -> Hx -> Hy. simpl. rewrite Hx. simpl. by rewrite Hy.
  - intros D A v y -> Hx -> Hy. simpl. rewrite Hx. simpl. by rewrite Hy.
  - intros ints DZ AZ z y -> Hx -> Hy. simpl. rewrite Hx. simpl. by rewrite Hy.
Qed.
End AugmentedDatasetMore.

Lemma AugmentedDataset_getitem_appends_witness :
  let self : gmap string (Dataset (pyval Z)) :=
    <["augmented_data" := example_aux]> (<["dataset" := example_pairs]> ∅) in
  self !! "dataset" = Some example_pairs ∧
  self !! "augmented_data" = Some example_aux ∧
  ds_getitem example_pairs 0 = Ok (PyTuple [PyLeaf 1; PyLeaf 2]) ∧
  ds_getitem example_aux 0 = Ok (PyLeaf 7) ∧
  AugmentedDataset.__len__ self = Ok (len example_pairs) ∧
  AugmentedDataset.__getitem__ self 0
  = Ok (PyTuple ([PyLeaf 1; PyLeaf 2] ++ [PyLeaf 7])) ∧
  last ([PyLeaf 1; PyLeaf 2] ++ [PyLeaf 7]) = Some (PyLeaf 7) ∧
  take (length [PyLeaf 1; PyLeaf 2]) ([PyLeaf 1; PyLeaf 2] ++ [PyLeaf 7])
  = [PyLeaf 1; PyLeaf 2].
Proof.
  intros self.
  assert (self !! "dataset" = Some example_pairs) as H1 by reflexivity.
  assert (self !! "augmented_data" = Some example_aux) as H2 by reflexivity.
  assert (ds_getitem example_pairs 0 = Ok (PyTuple [PyLeaf 1; PyLeaf 2]))
    as H3 by reflexivity.
  assert (ds_getitem example_aux 0 = Ok (PyLeaf 7)) as H4 by reflexivity.
  repeat (split; [assumption|]).
  exact (AugmentedDataset_getitem_appends self example_pairs example_aux 0
           [PyLeaf 1; PyLeaf 2] (PyLeaf 7) H1 H2 H3 H4).
Defined.

Lemma AugmentedDataset_method_errors_witness :
  let self : gmap string (Dataset (pyval Z)) := <["dataset" := example_pairs]> ∅ in
  let ints : gmap string (Dataset (pyval Z)) :=
    <["augmented_data" := example_aux]> (<["dataset" := example_aux]> ∅) in
  (∅ : gmap string (Dataset (pyval Z))) !! "dataset" = None ∧
  AugmentedDataset.__len__ (∅ : gmap string (Dataset (pyval Z)))
  = Raise AttributeError ∧
  self !! "dataset" = Some example_pairs ∧
  ds_getitem example_pairs 1 = Raise IndexError ∧
  AugmentedDataset.__getitem__ self 1 = Raise IndexError ∧
  ds_getitem example_pairs 0 = Ok (PyTuple [PyLeaf 1; PyLeaf 2]) ∧
  self !! "augmented_data" = None ∧
  AugmentedDataset.__getitem__ self 0 = Raise AttributeError ∧
  ints !! "dataset" = Some example_aux ∧
  ints !! "augmented_data" = Some example_aux ∧
  ds_getitem example_aux 0 = Ok (PyLeaf 7) ∧
  AugmentedDataset.__getitem__ ints 0 = Raise TypeError.
Proof.
  intros self ints.
  assert ((∅ : gmap string (Dataset (pyval Z))) !! "dataset" = None) as H0
    by reflexivity.
  assert (self !! "dataset" = Some example_pairs) as H1 by reflexivity.
  assert (ds_getitem example_pairs 1 = Raise IndexError) as H2 by reflexivity.
  assert (ds_getitem example_pairs 0 = Ok (PyTuple [PyLeaf 1; PyLeaf 2]))
    as H3 by reflexivity.
  assert (self !! "augmented_data" = None) as H4 by reflexivity.
  assert (ints !! "dataset" = Some example_aux) as H5 by reflexivity.
  assert (ints !! "augmented_data" = Some example_aux) as H6 by reflexivity.
  assert (ds_getitem example_aux 0 = Ok (PyLeaf 7)) as H7 by reflexivity.
  split; [exact H0|].
  split; [exact (proj1 (proj1 (AugmentedDataset_method_errors ∅ 0) H0))|].
  split; [exact H1|]. split; [exact H2|].
  destruct (AugmentedDataset_method_errors self 1) as (_ & Hprop & _).
  split; [exact (Hprop example_pairs IndexError H1 H2)|].
  split; [exact H3|]. split; [exact H4|].
  destruct (AugmentedDataset_method_errors self 0)
    as (_ & _ & Hmiss & _ & _ & Hint).
  split; [exact (Hmiss example_pairs _ H1 H3 H4)|].
  split; [exact H5|]. split; [exact H6|]. split; [exact H7|].
  exact (Hint ints example_aux example_aux 7 (PyLeaf 7) H5 H7 H6 H7).
Defined.

(** ** AverageMeter *)

Section AverageMeterMore.
Import AverageMeter.
Implicit Types (self : AverageMeter.t) (us vs : list (Z * Z)).

Lemma weighted_sum_perm us vs :
  us ≡ₚ vs → weighted_sum us = weighted_sum vs ∧
             total_weight us = total_weight vs.
Proof.
  induction 1 as [|u us vs _ [IH1 IH2]|u u' us|us vs ws _ [IH1 IH2] _ [IH3 IH4]];
    simpl; split; lia.
Qed.

(** X11. For int values and positive int weights the order of the updates
    does not matter for what the meter ends with: when two orderings of the
    same updates both run through after a reset, they leave the same sum,
    count and average. (An ordering may stop with OverflowError where
    another runs through; [val], the last value, depends on the order.) *)
Theorem AverageMeter_int_order_irrelevant self0 us vs self self' :
  us ≡ₚ vs → Forall (λ u, 0 < u.2) us →
  updates (reset self0) (int_updates us) = (self, Ok tt) →
  updates (reset self0) (int_updates vs) = (self', Ok tt) →
  sum self = sum self' ∧ count self = count self' ∧ avg self = avg self'.
Proof.
  intros Hp Hpos Hus Hvs.
  assert (Forall (λ u : Z * Z, 0 < u.2) vs) as Hpos' by (by rewrite <- Hp).
  destruct (weighted_sum_perm us vs Hp) as [Hws Htw].
  destruct (updates_int us (reset self0) 0 0) as
    (s1 & r1 & Hrun & Hok & _); [done|done|lia|done|].
  destruct (updates_int vs (reset self0) 0 0) as
    (s2 & r2 & Hrun' & Hok' & _); [done|done|lia|done|].
  rewrite Hus in Hrun. injection Hrun as <- <-.
  rewrite Hvs in Hrun'. injection Hrun' as <- <-.
  destruct (Hok eq_refl) as (Hsum & Hcount & Hnil & Hcons).
  destruct (Hok' eq_refl) as (Hsum' & Hcount' & Hnil' & Hcons').
  split; [by rewrite Hsum, Hsum', Hws|].
  split; [by rewrite Hcount, Hcount', Htw|].
  destruct us as [|u us].
  - apply Permutation_nil_l in Hp. subst vs.
    by rewrite (Hnil eq_refl), (Hnil' eq_refl).
  - assert (vs ≠ []) as Hne.
    { intros ->. by apply Permutation_nil_r in Hp. }
    specialize (Hcons ltac:(done)). specialize (Hcons' Hne).
    rewrite Hws, Htw, Hcons' in Hcons. by injection Hcons.
Qed.
End AverageMeterMore.

Lemma AverageMeter_int_order_irrelevant_witness :
  let self := (AverageMeter.updates (AverageMeter.reset AverageMeter.__init__)
                 (AverageMeter.int_updates example_updates)).1 in
  let self' := (AverageMeter.updates (AverageMeter.reset AverageMeter.__init__)
                  (AverageMeter.int_updates (reverse example_updates))).1 in
  example_updates ≡ₚ reverse example_updates ∧
  Forall (λ u : Z * Z, 0 < u.2) example_updates ∧
  AverageMeter.updates (AverageMeter.reset AverageMeter.__init__)
    (AverageMeter.int_updates example_updates) = (self, Ok tt) ∧
  AverageMeter.updates (AverageMeter.reset AverageMeter.__init__)
    (AverageMeter.int_updates (reverse example_updates)) = (self', Ok tt) ∧
  AverageMeter.sum self = AverageMeter.sum self' ∧
  AverageMeter.count self = AverageMeter.count self' ∧
  AverageMeter.avg self = AverageMeter.avg self'.
Proof.
  intros self self'.
  assert (example_updates ≡ₚ reverse example_updates) as H1
    by (symmetry; apply reverse_Permutation).
  assert (Forall (λ u : Z * Z, 0 < u.2) example_updates) as H2
    by (repeat constructor).
  assert (AverageMeter.updates (AverageMeter.reset AverageMeter.__init__)
            (AverageMeter.int_updates example_updates) = (self, Ok tt)) as H3
    by (vm_compute; reflexivity).
  assert (AverageMeter.updates (AverageMeter.reset AverageMeter.__init__)
            (AverageMeter.int_updates (reverse example_updates))
          = (self', Ok tt)) as H4 by (vm_compute; reflexivity).
  split; [exact H1|]. split; [exact H2|]. split; [exact H3|].
  split; [exact H4|].
  exact (AverageMeter_int_order_irrelevant AverageMeter.__init__
           example_updates (reverse example_updates) self self' H1 H2 H3 H4).
Defined.

(** ** accuracy *)

Lemma map_nth_take {B} (d : B) (l : list B) (k : nat) :
  (k ≤ length l)%nat → (λ j, nth j l d) <$> seq 0 k = take k l.
Proof.
  intros Hk. rewrite <- (map_nth_seq d (take k l)).
  rewrite length_take, Nat.min_l by done.
  apply list_fmap_ext. intros i j Hj. apply lookup_seq in Hj as [-> Hlt].
  simpl. destruct (nth_lookup_or_length (take k l) i d) as [H1|H1];
    [|rewrite length_take in H1; lia].
  destruct (nth_lookup_or_length l i d) as [H2|H2]; [|lia].
  rewrite lookup_take_lt in H1 by done. congruence.
Qed.

(** In a row without repetition a label is hit once or not at all. *)
Lemma count_true_NoDup (l : list nat) (t : Z) :
  NoDup l →
  count_true ((λ p, Z.of_nat p =? t) <$> l)
  = if decide (t ∈ Z.of_nat <$> l) then 1%nat else 0%nat.
Proof.
  induction 1 as [|x l Hx Hnd IH]; [done|].
  rewrite !fmap_cons, count_true_cons, IH.
  assert (Z.of_nat x ∉ Z.of_nat <$> l) as Hx'.
  { intros Hin. by apply (list_elem_of_fmap_inj Z.of_nat) in Hin. }
  destruct (Z.eqb_spec (Z.of_nat x) t) as [<-|Hne];
    repeat case_decide; try reflexivity; exfalso;
    repeat match goal with
    | H : _ ∈ _ :: _ |- _ => apply elem_of_cons in H as [?|?]
    | H : _ ∉ _ :: _ |- _ => apply not_elem_of_cons in H as [? ?]
    end; congruence.
Qed.

Lemma count_true_concat_nil {B} (g : B → list bool) (js : list B) :
  (∀ j, g j = []) → count_true (concat (map g js)) = 0%nat.
Proof.
  intros Hg. induction js as [|j js IH]; [done|]. simpl. by rewrite Hg.
Qed.

(** Row by row: the correct entries in the columns [js] are the hits of
    each example in these columns, summed. *)
Lemma count_true_rows (js : list nat) (pred : list (list nat))
    (target : list Z) :
  count_true (concat (map (λ j,
    zip_with (λ p t, Z.of_nat p =? t) (map (λ r, nth j r 0%nat) pred) target)
    js))
  = sum_list (zip_with (λ r t,
      count_true ((λ j, Z.of_nat (nth j r 0%nat) =? t) <$> js)) pred target).
Proof.
  revert target. induction pred as [|r pred IH]; intros target.
  - by apply count_true_concat_nil.
  - destruct target as [|t target].
    + by apply count_true_concat_nil.
    + simpl. rewrite (count_true_columns
        (λ j, Z.of_nat (nth j r 0%nat) =? t)
        (λ j, zip_with (λ p t, Z.of_nat p =? t)
                (map (λ r, nth j r 0%nat) pred) target)).
      by rewrite IH.
Qed.

Lemma batch_scale_pos (target : list Z) :
  target ≠ [] → (0 < 100 / inject_Z (Z.of_nat (length target)))%Q.
Proof.
  intros Hne. apply Qlt_shift_div_l.
  - destruct target; [done|]. unfold Qlt. simpl. lia.
  - lra.
Qed.

Section AccuracyMore.
Context `{TopK} (Hspec : topk_contract).

Lemma sum_list_hits (k maxk : nat) (rs : list (list Q)) (target : list Z) :
  (k ≤ maxk)%nat → Forall (λ r, (maxk ≤ length r)%nat) rs →
  sum_list (zip_with (λ r t,
      count_true ((λ j, Z.of_nat (nth j r 0%nat) =? t) <$> seq 0 k))
    (map (λ row, topk_row row maxk) rs) target)
  = length (filter (λ rt, rt.2 ∈ Z.of_nat <$> take k (topk_row rt.1 maxk))
              (zip rs target)).
Proof.
  intros Hk Hrs. revert target.
  induction Hrs as [|row rs Hrow _ IH]; intros target; [done|].
  destruct target as [|t target]; [done|].
  cbn [map zip_with sum_list sum_list_with]. rewrite IH.
  change (zip (row :: rs) (t :: target)) with ((row, t) :: zip rs target).
  pose proof (length_topk_row Hspec row maxk Hrow) as Hlen.
  pose proof (NoDup_topk_row Hspec row maxk Hrow) as Hnd.
  rewrite filter_cons. simpl. set (R := topk_row row maxk) in *.
  rewrite (list_fmap_compose (λ j, nth j R 0%nat) (λ p, Z.of_nat p =? t)).
  rewrite map_nth_take by lia.
  rewrite count_true_NoDup
    by (eapply sublist_NoDup; [exact Hnd|apply sublist_take]).
  by destruct (decide (t ∈ Z.of_nat <$> take k R)).
Qed.

(** The value of [accuracy] in terms of hits, on a well-formed call that
    gets past [view]. *)
Lemma accuracy_hits output target topk :
  wf_matrix output → target ≠ [] → length target = length (rows output) →
  topk ≠ [] → Forall (λ k, 1 <= k <= Z.of_nat (ncols output)) topk →
  length target = 1%nat ∨ Forall (λ k, k = 1) topk →
  ∃ maxk, py_max topk = Ok maxk ∧ 1 <= maxk <= Z.of_nat (ncols output) ∧
    Forall (λ k, k <= maxk) topk ∧
    accuracy output target topk
    = Ok ((λ k, (inject_Z (Z.of_nat
                   (topk_hits (Z.to_nat maxk) (Z.to_nat k) output target))
                 * (100 / inject_Z (Z.of_nat (length target))))%Q) <$> topk).
Proof.
  intros Hwf Hne Hlen Hk Hks Hpass.
  destruct (accuracy_value output target topk Hne Hlen Hk Hks Hpass)
    as (maxk & Hmax & Hb & Hle & ->).
  exists maxk. split; [done|]. split; [done|]. split; [done|].
  f_equal. apply list_fmap_ext. intros i k Hi.
  apply list_elem_of_lookup_2 in Hi.
  rewrite Forall_forall in Hle. rewrite Forall_forall in Hks.
  specialize (Hle k Hi). specialize (Hks k Hi). simpl.
  rewrite count_true_rows, (sum_list_hits _ (Z.to_nat maxk)); [done|lia|].
  eapply Forall_impl; [exact Hwf|]. intros r Hr. simpl in Hr. lia.
Qed.

(** X12. [accuracy] computes top-k accuracy on the calls that get past
    [view]: a request for the top prediction only (the default), or a batch
    of one example. On a well-formed, non-empty batch and requested values
    between 1 and C it returns, for each requested [k] and in the order of
    the request, 100 times the share of the examples whose label is among
    the first [k] predictions of their row; and these are [k] best-scoring
    classes of the row, whichever way [topk] settles equal scores. *)
Theorem accuracy_is_topk_percentage output target topk :
  wf_matrix output → target ≠ [] → length target = length (rows output) →
  topk ≠ [] → Forall (λ k, 1 <= k <= Z.of_nat (ncols output)) topk →
  length target = 1%nat ∨ Forall (λ k, k = 1) topk →
  ∃ maxk, py_max topk = Ok maxk ∧
    accuracy output target topk
    = Ok ((λ k, (inject_Z (Z.of_nat
                   (topk_hits (Z.to_nat maxk) (Z.to_nat k) output target))
                 * (100 / inject_Z (Z.of_nat (length target))))%Q) <$> topk) ∧
    ∀ row k, row ∈ rows output → k ∈ topk →
      is_topk row (Z.to_nat k)
        (take (Z.to_nat k) (topk_row row (Z.to_nat maxk))).
Proof.
  intros Hwf Hne Hlen Hk Hks Hpass.
  destruct (accuracy_hits output target topk Hwf Hne Hlen Hk Hks Hpass)
    as (maxk & Hmax & Hb & Hle & Hacc).
  exists maxk. split; [done|]. split; [done|].
  intros row k Hrow Hin. apply (is_topk_take Hspec).
  unfold wf_matrix in Hwf. rewrite Forall_forall in Hwf.
  rewrite Forall_forall in Hle. rewrite Forall_forall in Hks.
  specialize (Hwf row Hrow). specialize (Hle k Hin). specialize (Hks k Hin).
  simpl in Hwf. lia.
Qed.

(** X13. On the same calls every number [accuracy] returns lies between 0
    and 100, and there is one number per requested value. *)
Theorem accuracy_in_0_100 output target topk :
  wf_matrix output → target ≠ [] → length target = length (rows output) →
  topk ≠ [] → Forall (λ k, 1 <= k <= Z.of_nat (ncols output)) topk →
  length target = 1%nat ∨ Forall (λ k, k = 1) topk →
  ∃ res, accuracy output target topk = Ok res ∧
    length res = length topk ∧ Forall (λ q, (0 <= q <= 100)%Q) res.
Proof.
  intros Hwf Hne Hlen Hk Hks Hpass.
  destruct (accuracy_hits output target topk Hwf Hne Hlen Hk Hks Hpass)
    as (maxk & _ & _ & _ & ->).
  eexists. split; [reflexivity|]. split; [by rewrite length_fmap|].
  apply Forall_fmap, Forall_forall. intros k _. simpl.
  assert (topk_hits (Z.to_nat maxk) (Z.to_nat k) output target
          ≤ length target)%nat as Hle.
  { unfold topk_hits. etransitivity; [apply length_filter|].
    rewrite length_zip_with. lia. }
  pose proof (batch_scale_pos target Hne) as Hpos.
  set (h := topk_hits (Z.to_nat maxk) (Z.to_nat k) output target) in *.
  set (s := (100 / inject_Z (Z.of_nat (length target)))%Q) in *.
  assert (inject_Z (Z.of_nat (length target)) * s == 100)%Q as Hfull.
  { unfold s. field. destruct target; [done|]. unfold Qeq. simpl. lia. }
  assert (0 <= inject_Z (Z.of_nat h))%Q as H0.
  { unfold Qle. simpl. lia. }
  assert (inject_Z (Z.of_nat h) <= inject_Z (Z.of_nat (length target)))%Q
    as H1.
  { rewrite <- Zle_Qle. lia. }
  split.
  - apply Qmult_le_0_compat; lra.
  - rewrite <- Hfull. apply Qmult_le_compat_r; lra.
Qed.

(** X15. The calls [accuracy] refuses: no requested value (ValueError, from
    [max]); a largest requested value below 0 or above C (RuntimeError, from
    [topk]); a target whose size is neither the batch size nor 1
    (RuntimeError); and an empty batch with an empty target
    (ZeroDivisionError, from [100.0 / batch_size]). *)
Theorem accuracy_errors output target topk :
  (topk = [] → accuracy output target topk = Raise ValueError) ∧
  (∀ maxk, py_max topk = Ok maxk →
     maxk < 0 ∨ Z.of_nat (ncols output) < maxk →
     accuracy output target topk = Raise RuntimeError) ∧
  (∀ maxk, py_max topk = Ok maxk → 0 <= maxk <= Z.of_nat (ncols output) →
     length target ≠ length (rows output) → length target ≠ 1%nat →
     accuracy output target topk = Raise RuntimeError) ∧
  (∀ maxk, py_max topk = Ok maxk → 0 <= maxk <= Z.of_nat (ncols output) →
     target = [] → rows output = [] →
     accuracy output target topk = Raise ZeroDivisionError).
Proof.
  unfold accuracy, torch_topk.
  split; [by intros ->|].
  split; [|split].
  - intros maxk -> Hm. simpl.
    destruct (Z.ltb_spec maxk 0), (Z.ltb_spec (Z.of_nat (ncols output)) maxk);
      try done; lia.
  - intros maxk -> Hm Hlen H1. simpl.
    destruct (Z.ltb_spec maxk 0) as [?|_]; [lia|].
    destruct (Z.ltb_spec (Z.of_nat (ncols output)) maxk) as [?|_]; [lia|].
    simpl. unfold expand_row. rewrite decide_False by done.
    by destruct target as [|? [|? ?]].
  - intros maxk Hmax Hm -> Hrows. rewrite Hmax, Hrows. simpl.
    destruct (Z.ltb_spec maxk 0) as [?|_]; [lia|].
    destruct (Z.ltb_spec (Z.of_nat (ncols output)) maxk) as [?|_]; [lia|].
    simpl. destruct topk as [|k topk]; [done|]. simpl.
    unfold view_flat. rewrite decide_False by (simpl; lia). reflexivity.
Qed.
End AccuracyMore.

Lemma example_scores3_call :
  wf_matrix example_scores3 ∧ [1; 2; 0] ≠ @nil Z ∧
  length [1; 2; 0] = length (rows example_scores3) ∧ [1; 1] ≠ @nil Z ∧
  Forall (λ k, 1 <= k <= Z.of_nat (ncols example_scores3)) [1; 1] ∧
  (length [1; 2; 0] = 1%nat ∨ Forall (λ k, k = 1) [1; 1]).
Proof.
  split; [repeat constructor|]. split; [discriminate|].
  split; [reflexivity|]. split; [discriminate|].
  split; [repeat constructor; simpl; lia|]. right. by repeat constructor.
Qed.

Lemma accuracy_is_topk_percentage_witness :
  (wf_matrix example_scores3 ∧ [1; 2; 0] ≠ @nil Z ∧
   length [1; 2; 0] = length (rows example_scores3) ∧ [1; 1] ≠ @nil Z ∧
   Forall (λ k, 1 <= k <= Z.of_nat (ncols example_scores3)) [1; 1] ∧
   (length [1; 2; 0] = 1%nat ∨ Forall (λ k, k = 1) [1; 1])) ∧
  ∃ maxk, py_max [1; 1] = Ok maxk ∧
    accuracy example_scores3 [1; 2; 0] [1; 1]
    = Ok ((λ k, (inject_Z (Z.of_nat
                   (topk_hits (Z.to_nat maxk) (Z.to_nat k) example_scores3
                      [1; 2; 0]%Z))
                 * (100 / inject_Z (Z.of_nat (length [1; 2; 0]%Z))))%Q)
          <$> [1; 1]) ∧
    ∀ row k, row ∈ rows example_scores3 → k ∈ [1; 1] →
      is_topk row (Z.to_nat k)
        (take (Z.to_nat k) (topk_row row (Z.to_nat maxk))).
Proof.
  split; [exact example_scores3_call|].
  destruct example_scores3_call as (H1 & H2 & H3 & H4 & H5 & H6).
  exact (accuracy_is_topk_percentage stable_topk_contract example_scores3
           [1; 2; 0] [1; 1] H1 H2 H3 H4 H5 H6).
Defined.

Lemma accuracy_in_0_100_witness :
  (wf_matrix example_scores3 ∧ [1; 2; 0] ≠ @nil Z ∧
   length [1; 2; 0] = length (rows example_scores3) ∧ [1; 1] ≠ @nil Z ∧
   Forall (λ k, 1 <= k <= Z.of_nat (ncols example_scores3)) [1; 1] ∧
   (length [1; 2; 0] = 1%nat ∨ Forall (λ k, k = 1) [1; 1])) ∧
  ∃ res, accuracy example_scores3 [1; 2; 0] [1; 1] = Ok res ∧
    length res = length [1; 1] ∧ Forall (λ q, (0 <= q <= 100)%Q) res.
Proof.
  split; [exact example_scores3_call|].
  destruct example_scores3_call as (H1 & H2 & H3 & H4 & H5 & H6).
  exact (accuracy_in_0_100 stable_topk_contract example_scores3 [1; 2; 0]
           [1; 1] H1 H2 H3 H4 H5 H6).
Defined.

Lemma accuracy_errors_witness :
  ([] = @nil Z ∧ accuracy example_scores3 [1; 2; 0] [] = Raise ValueError) ∧
  (py_max [1; 4] = Ok 4 ∧ (4 < 0 ∨ Z.of_nat (ncols example_scores3) < 4) ∧
   accuracy example_scores3 [1; 2; 0] [1; 4] = Raise RuntimeError) ∧
  (py_max [1] = Ok 1 ∧ 0 <= 1 <= Z.of_nat (ncols example_scores3) ∧
   length [1; 2] ≠ length (rows example_scores3) ∧ length [1; 2] ≠ 1%nat ∧
   accuracy example_scores3 [1; 2] [1] = Raise RuntimeError) ∧
  (py_max [1] = Ok 1 ∧ 0 <= 1 <= Z.of_nat (ncols (mkMatrix 3 [])) ∧
   accuracy (mkMatrix 3 []) [] [1] = Raise ZeroDivisionError).
Proof.
  assert (4 < 0 ∨ Z.of_nat (ncols example_scores3) < 4) as Hk
    by (right; simpl; lia).
  assert (0 <= 1 <= Z.of_nat (ncols example_scores3)) as H1 by (simpl; lia).
  assert (length [1; 2] ≠ length (rows example_scores3)) as H2 by discriminate.
  assert (length [1; 2] ≠ 1%nat) as H3 by discriminate.
  assert (0 <= 1 <= Z.of_nat (ncols (mkMatrix 3 []))) as H4 by (simpl; lia).
  split; [split; [reflexivity|]|split; [|split]].
  - exact (proj1 (accuracy_errors example_scores3 [1; 2; 0] []) eq_refl).
  - split; [reflexivity|]. split; [exact Hk|].
    exact (proj1 (proj2 (accuracy_errors example_scores3 [1; 2; 0] [1; 4]))
             4 eq_refl Hk).
  - split; [reflexivity|]. split; [exact H1|]. split; [exact H2|].
    split; [exact H3|].
    exact (proj1 (proj2 (proj2 (accuracy_errors example_scores3 [1; 2] [1])))
             1 eq_refl H1 H2 H3).
  - split; [reflexivity|]. split; [exact H4|].
    exact (proj2 (proj2 (proj2 (accuracy_errors (mkMatrix 3 []) [] [1])))
             1 eq_refl H4 eq_refl eq_refl).
Defined.

(** ** label_smoothing *)

Section LabelSmoothingMore.
Local Open Scope Q_scope.

Lemma one_hot_given (labels : list Z) (c : nat) :
  (2 ≤ c)%nat → Forall (λ l, (0 <= l < Z.of_nat c)%Z) labels →
  one_hot labels (Z.of_nat c) = Ok (mkMatrix c (map (one_hot_row c) labels)).
Proof.
  intros Hc Hall. unfold one_hot. destruct labels as [|x xs].
  - destruct (Z.leb_spec (Z.of_nat c) 0); [lia|]. by rewrite Nat2Z.id.
  - apply Forall_cons in Hall as [Hx Hxs].
    destruct (fold_left_min_le xs x) as [_ Hmin].
    destruct (fold_left_max_bounds xs x 0 (Z.of_nat c - 1)) as (Hb & _ & _);
      [lia|by eapply Forall_impl; [exact Hxs|]; simpl; lia|].
    assert (0 <= fold_left Z.min xs x)%Z as Hm.
    { clear Hb Hmin. revert x Hx.
      induction Hxs as [|y xs Hy _ IH]; intros x Hx; simpl; [lia|].
      apply IH. lia. }
    destruct (Z.ltb_spec (fold_left Z.min xs x) 0) as [?|_]; [lia|].
    destruct (Z.eqb_spec (Z.of_nat c) (-1)) as [?|_]; [lia|].
    destruct (Z.ltb_spec (fold_left Z.max xs x) (Z.of_nat c)) as [_|?]; [|lia].
    by rewrite Nat2Z.id.
Qed.

Lemma smooth_matrix (ts uw : Q) (m : Matrix) :
  tzip Qplus (tmap (λ x, x * ts) (Float2 m))
    (tmap (λ o, o * uw) (tmap (λ _, 1) (Float2 m)))
  = Ok (Float2 (mkMatrix (ncols m)
      (map (λ r, zip_with Qplus (map (λ x, x * ts) r)
                   (map (λ o, o * uw) (map (λ _, 1) r))) (rows m)))).
Proof.
  simpl. rewrite decide_True by (by rewrite !length_map).
  by rewrite smooth_rows.
Qed.

Lemma lookup_smooth_row (ts uw : Q) (r : list Q) (j : nat) (x : Q) :
  zip_with Qplus (map (λ x, x * ts) r) (map (λ o, o * uw) (map (λ _, 1) r))
    !! j = Some x →
  ∃ y, r !! j = Some y ∧ x = y * ts + 1 * uw.
Proof.
  intros Hx. apply lookup_zip_with_Some in Hx as (a & b & -> & Ha & Hb).
  change (map ?f ?l) with (f <$> l) in Ha, Hb.
  rewrite !list_lookup_fmap in Hb. rewrite list_lookup_fmap in Ha.
  destruct (r !! j) as [y|]; [|done]. simpl in Ha, Hb.
  injection Ha as <-. injection Hb as <-. by exists y.
Qed.

(** X16. Smoothing class indices with a given number C >= 2 of classes
    and labels in [0, C): each example gets a row of C entries, 1 - epsilon
    at its label and epsilon / (C - 1) at every other class. *)
Theorem label_smoothing_class_indices (labels : list Z) (epsilon : Q)
    (c : nat) :
  (2 ≤ c)%nat → Forall (λ l, (0 <= l < Z.of_nat c)%Z) labels →
  ∃ out, label_smoothing (Int64_1 labels) epsilon (Z.of_nat c)
         = Ok (Float2 (mkMatrix c out)) ∧
    Forall2 (λ l row, length row = c ∧
      ∀ (j : nat) x, row !! j = Some x →
        x == if decide (Z.of_nat j = l) then 1 - epsilon
             else epsilon / inject_Z (Z.of_nat c - 1)) labels out.
Proof.
  intros Hc Hall. unfold label_smoothing. simpl.
  rewrite (one_hot_given labels c Hc Hall). simpl.
  assert (¬ inject_Z (Z.of_nat c - 1) == 0) as Hnz.
  { unfold Qeq. simpl. lia. }
  rewrite (py_div_nonzero _ _ Hnz). simpl.
  set (uw := epsilon / inject_Z (Z.of_nat c - 1)).
  rewrite (decide_True (P := c = c ∧ _)) by (by rewrite !length_map).
  rewrite smooth_rows.
  eexists. split; [reflexivity|].
  change (map ?f ?l) with (f <$> l).
  rewrite <- list_fmap_compose.
  apply Forall2_fmap_r, Forall_Forall2_diag, Forall_forall. intros l Hl.
  simpl. split; [by rewrite length_smooth_row, length_one_hot_row|].
  intros j x Hx. apply lookup_smooth_row in Hx as (y & Hy & ->).
  unfold one_hot_row in Hy. change (map ?f ?l) with (f <$> l) in Hy.
  rewrite list_lookup_fmap in Hy.
  destruct (seq 0 c !! j) as [j'|] eqn:Hj; [|done].
  apply lookup_seq in Hj as [-> _]. simpl in Hy. injection Hy as <-.
  destruct (Z.eqb_spec (Z.of_nat j) l) as [He|He].
  - rewrite decide_True by done. ring.
  - rewrite decide_False by done. ring.
Qed.

(** X17. The targets [label_smoothing] refuses: a single class makes the
    division by C - 1 a ZeroDivisionError; a negative class index, an index
    not below a given number of classes, and an empty tensor of indices
    without a positive number of classes are RuntimeErrors of [F.one_hot]. *)
Theorem label_smoothing_errors (epsilon : Q) (num_classes : Z) :
  (∀ target t, float_target target num_classes = Ok t →
     shape_last t = 1%Z →
     label_smoothing target epsilon num_classes = Raise ZeroDivisionError) ∧
  (∀ labels l, l ∈ labels → (l < 0)%Z →
     label_smoothing (Int64_1 labels) epsilon num_classes
     = Raise RuntimeError) ∧
  (∀ labels l, l ∈ labels → num_classes ≠ (-1)%Z → (num_classes <= l)%Z →
     label_smoothing (Int64_1 labels) epsilon num_classes
     = Raise RuntimeError) ∧
  ((num_classes <= 0)%Z →
   label_smoothing (Int64_1 []) epsilon num_classes = Raise RuntimeError).
Proof.
  unfold label_smoothing. split; [|split; [|split]].
  - intros target t -> Hc. simpl. rewrite Hc. reflexivity.
  - intros labels l Hin Hl. simpl. unfold one_hot.
    destruct labels as [|x xs]; [by apply elem_of_nil in Hin|].
    destruct (fold_left_min_le xs x) as [Hx Hxs].
    assert (fold_left Z.min xs x <= l)%Z as Hle.
    { apply elem_of_cons in Hin as [->|Hin]; [done|].
      rewrite Forall_forall in Hxs. by apply Hxs. }
    by destruct (Z.ltb_spec (fold_left Z.min xs x) 0) as [_|?]; [|lia].
  - intros labels l Hin Hne Hl. simpl. unfold one_hot.
    destruct labels as [|x xs]; [by apply elem_of_nil in Hin|].
    destruct (fold_left_max_ge xs x) as [Hx Hxs].
    assert (l <= fold_left Z.max xs x)%Z as Hle.
    { apply elem_of_cons in Hin as [->|Hin]; [done|].
      rewrite Forall_forall in Hxs. by apply Hxs. }
    destruct (fold_left Z.min xs x <? 0)%Z; [done|].
    destruct (Z.eqb_spec num_classes (-1)) as [?|_]; [done|].
    by destruct (Z.ltb_spec (fold_left Z.max xs x) num_classes) as [?|_];
      [lia|].
  - intros Hc. simpl.
    by destruct (Z.leb_spec num_classes 0) as [_|?]; [|lia].
Qed.
End LabelSmoothingMore.

Section LabelSmoothingUnit.
Local Open Scope Q_scope.

Lemma one_hot_unit_entries labels num_classes m :
  one_hot labels num_classes = Ok m → unit_entries (Float2 m).
Proof.
  assert (∀ c ls, Forall (Forall (λ x, 0 <= x <= 1))
                    (map (one_hot_row c) ls)) as Hrows.
  { intros c ls. rewrite Forall_map. apply Forall_forall. intros l _.
    unfold one_hot_row. rewrite Forall_map. apply Forall_forall. intros j _.
    simpl. destruct (Z.of_nat j =? l)%Z; lra. }
  unfold one_hot, unit_entries. intros Hm. destruct labels as [|x xs].
  - destruct (num_classes <=? 0)%Z; [done|]. injection Hm as <-. constructor.
  - destruct (fold_left Z.min xs x <? 0)%Z; [done|].
    destruct (num_classes =? -1)%Z;
      [injection Hm as <-; apply (Hrows _ (x :: xs))|].
    destruct (fold_left Z.max xs x <? num_classes)%Z; [|done].
    injection Hm as <-. apply (Hrows _ (x :: xs)).
Qed.

Lemma smooth_entry_unit (epsilon d y : Q) :
  0 <= epsilon <= 1 → 1 <= d → 0 <= y <= 1 →
  0 <= y * (1 - epsilon - epsilon / d) + 1 * (epsilon / d) <= 1.
Proof.
  intros He Hd Hy.
  assert (0 <= epsilon / d) as Hu0 by (apply Qle_shift_div_l; lra).
  assert (epsilon / d <= 1) as Hu1 by (apply Qle_shift_div_r; lra).
  set (uw := epsilon / d) in *.
  assert (0 <= y * (1 - epsilon)) by (apply Qmult_le_0_compat; lra).
  assert (0 <= (1 - y) * uw) by (apply Qmult_le_0_compat; lra).
  assert (0 <= (1 - y) * (1 - uw)) by (apply Qmult_le_0_compat; lra).
  assert (0 <= y * epsilon) by (apply Qmult_le_0_compat; lra).
  split; nra.
Qed.

(** X18. With epsilon in [0, 1] and C >= 2 classes, smoothing keeps every
    entry in [0, 1]: for class indices, and for a float target whose entries
    lie in [0, 1]. Together with the sums, the output rows are probability
    distributions. *)
Theorem label_smoothing_unit_entries target (epsilon : Q) (num_classes : Z) t :
  float_target target num_classes = Ok t →
  unit_target target →
  (2 <= shape_last t)%Z →
  0 <= epsilon <= 1 →
  ∃ out, label_smoothing target epsilon num_classes = Ok out ∧
    unit_entries out.
Proof.
  intros Ht Hunit Hc Heps.
  assert (unit_entries t) as Ht01.
  { destruct target as [labels|t']; simpl in Ht.
    - destruct (one_hot labels num_classes) as [m|e] eqn:E; [|done].
      injection Ht as <-. by eapply one_hot_unit_entries.
    - by injection Ht as <-. }
  unfold label_smoothing. rewrite Ht. simpl.
  assert (1 <= inject_Z (shape_last t - 1)) as Hd.
  { unfold Qle. simpl. lia. }
  rewrite py_div_nonzero by lra. simpl.
  destruct (smooth_tensor
              (1 - epsilon - epsilon / inject_Z (shape_last t - 1))
              (epsilon / inject_Z (shape_last t - 1)) t)
    as (out & -> & _ & Hd').
  exists out. split; [done|]. unfold unit_entries in *. rewrite Hd'.
  rewrite Forall_map. eapply Forall_impl; [exact Ht01|].
  intros r Hr. simpl. apply Forall_forall. intros x Hx.
  apply list_elem_of_lookup in Hx as [j Hj].
  apply lookup_smooth_row in Hj as (y & Hy & ->).
  rewrite Forall_forall in Hr.
  apply smooth_entry_unit; [done..|].
  by eapply Hr, list_elem_of_lookup_2.
Qed.
End LabelSmoothingUnit.

Lemma label_smoothing_class_indices_witness :
  (2 ≤ 3)%nat ∧ Forall (λ l, 0 <= l < Z.of_nat 3) [0; 2] ∧
  ∃ out, label_smoothing (Int64_1 [0; 2]) (1 # 10) (Z.of_nat 3)
         = Ok (Float2 (mkMatrix 3 out)) ∧
    Forall2 (λ l row, length row = 3%nat ∧
      ∀ (j : nat) x, row !! j = Some x →
        (x == if decide (Z.of_nat j = l) then 1 - (1 # 10)
              else (1 # 10) / inject_Z (Z.of_nat 3 - 1))%Q) [0; 2] out.
Proof.
  assert (2 ≤ 3)%nat as H1 by lia.
  assert (Forall (λ l, 0 <= l < Z.of_nat 3) [0; 2]) as H2
    by (repeat constructor; simpl; lia).
  split; [exact H1|]. split; [exact H2|].
  exact (label_smoothing_class_indices [0; 2] (1 # 10) 3 H1 H2).
Defined.

Lemma label_smoothing_errors_witness :
  (float_target (Int64_1 [0; 0]) (-1)
   = Ok (Float2 (mkMatrix 1 [[1]; [1]]%Q)) ∧
   shape_last (Float2 (mkMatrix 1 [[1]; [1]]%Q)) = 1 ∧
   label_smoothing (Int64_1 [0; 0]) (1 # 10) (-1) = Raise ZeroDivisionError) ∧
  (-1 ∈ [0; -1] ∧ -1 < 0 ∧
   label_smoothing (Int64_1 [0; -1]) (1 # 10) (-1) = Raise RuntimeError).
Proof.
  assert (-1 ∈ [0; -1]) as Hin by (right; left).
  assert (-1 < 0) as Hneg by lia.
  split.
  - split; [reflexivity|]. split; [reflexivity|].
    exact (proj1 (label_smoothing_errors (1 # 10) (-1))
             (Int64_1 [0; 0]) _ eq_refl eq_refl).
  - split; [exact Hin|]. split; [exact Hneg|].
    exact (proj1 (proj2 (label_smoothing_errors (1 # 10) (-1)))
             [0; -1] (-1) Hin Hneg).
Defined.

Lemma label_smoothing_unit_entries_witness :
  float_target example_soft (-1)
  = Ok (Float2 (mkMatrix 3 [[1 # 2; 1 # 4; 1 # 4]; [0; 1; 0]]%Q)) ∧
  unit_target example_soft ∧
  (0 <= 1 # 10 <= 1)%Q ∧
  ∃ out, label_smoothing example_soft (1 # 10) (-1) = Ok out ∧
    unit_entries out.
Proof.
  assert (unit_target example_soft) as Hu.
  { repeat constructor; simpl; lra. }
  assert (0 <= 1 # 10 <= 1)%Q as He by lra.
  split; [reflexivity|]. split; [exact Hu|]. split; [exact He|].
  refine (label_smoothing_unit_entries example_soft (1 # 10) (-1) _
            eq_refl Hu _ He).
  simpl. lia.
Defined.

(** ** cross_entropy_loss *)

(** X19. Which error [cross_entropy_loss] raises: an error of the tensor
    expression comes out as it is, whatever the reduction; the ValueError of
    an unsupported reduction is raised only once the loss terms have been
    computed. *)
Theorem cross_entropy_loss_error_order `{Torch} (logits probs : tensor)
    (axis : Z) (reduction : string) :
  (∀ e, loss_terms logits probs axis = Raise e →
     cross_entropy_loss logits probs axis reduction = Raise e) ∧
  (∀ tmp, loss_terms logits probs axis = Ok tmp → reduction ≠ "mean" →
     cross_entropy_loss logits probs axis reduction = Raise ValueError) ∧
  (∀ e, cross_entropy_loss logits probs axis reduction = Raise e →
     loss_terms logits probs axis = Raise e ∨
     (e = ValueError ∧ reduction ≠ "mean")).
Proof.
  unfold cross_entropy_loss. split; [|split].
  - by intros e ->.
  - intros tmp -> Hne. simpl. by apply String.eqb_neq in Hne as ->.
  - intros e. destruct (loss_terms logits probs axis) as [tmp|e']; simpl.
    + destruct (String.eqb_spec reduction "mean"); [done|].
      intros [= <-]. by right.
    + intros [= <-]. by left.
Qed.

Lemma wrap_dim_in_range (ndim : nat) (dim : Z) :
  - Z.max 1 (Z.of_nat ndim) <= dim < Z.max 1 (Z.of_nat ndim) →
  ∃ d, wrap_dim ndim dim = Ok d.
Proof.
  intros Hd. unfold wrap_dim.
  destruct (Z.ltb_spec dim (- Z.max 1 (Z.of_nat ndim))) as [?|_]; [lia|].
  destruct (Z.leb_spec (Z.max 1 (Z.of_nat ndim)) dim) as [?|_]; [lia|].
  by eexists.
Qed.

Lemma wrap_dim_out_of_range (ndim : nat) (dim : Z) :
  dim < - Z.max 1 (Z.of_nat ndim) ∨ Z.max 1 (Z.of_nat ndim) <= dim →
  wrap_dim ndim dim = Raise IndexError.
Proof.
  intros Hd. unfold wrap_dim.
  destruct (Z.ltb_spec dim (- Z.max 1 (Z.of_nat ndim))) as [?|?]; [done|].
  destruct (Z.leb_spec (Z.max 1 (Z.of_nat ndim)) dim) as [?|?]; [done|lia].
Qed.

(** X20. On shapes, for logits and a target of one and the same shape, of
    whatever rank: with the reduction "mean" the call returns a scalar when
    the axis is a dimension of the tensors (between -rank and rank - 1; -1
    or 0 for a scalar), and any call raises IndexError when it is not. *)
Theorem cross_entropy_loss_same_shape (s : list nat) (axis : Z)
    (reduction : string) :
  (- Z.max 1 (Z.of_nat (length s)) <= axis < Z.max 1 (Z.of_nat (length s)) →
   @cross_entropy_loss ShapeTorch s s axis "mean" = Ok []) ∧
  (axis < - Z.max 1 (Z.of_nat (length s))
   ∨ Z.max 1 (Z.of_nat (length s)) <= axis →
   @cross_entropy_loss ShapeTorch s s axis reduction = Raise IndexError).
Proof.
  unfold cross_entropy_loss, loss_terms. simpl. split.
  - intros Hd. destruct (wrap_dim_in_range (length s) axis Hd) as [d Hw].
    rewrite Hw. simpl. rewrite broadcast_same. simpl. by rewrite Hw.
  - intros Hd. by rewrite (wrap_dim_out_of_range (length s) axis Hd).
Qed.

Lemma cross_entropy_loss_same_shape_witness :
  (- Z.max 1 (Z.of_nat (length [4; 2; 3]%nat)) <= -3
   < Z.max 1 (Z.of_nat (length [4; 2; 3]%nat)) ∧
   @cross_entropy_loss ShapeTorch [4; 2; 3]%nat [4; 2; 3]%nat (-3) "mean"
   = Ok []) ∧
  ((3 < - Z.max 1 (Z.of_nat (length [4; 2; 3]%nat))
    ∨ Z.max 1 (Z.of_nat (length [4; 2; 3]%nat)) <= 3) ∧
   @cross_entropy_loss ShapeTorch [4; 2; 3]%nat [4; 2; 3]%nat 3 "mean"
   = Raise IndexError).
Proof.
  assert (- Z.max 1 (Z.of_nat (length [4; 2; 3]%nat)) <= -3
          < Z.max 1 (Z.of_nat (length [4; 2; 3]%nat))) as H1 by (simpl; lia).
  assert (3 < - Z.max 1 (Z.of_nat (length [4; 2; 3]%nat))
          ∨ Z.max 1 (Z.of_nat (length [4; 2; 3]%nat)) <= 3) as H2
    by (right; simpl; lia).
  split.
  - split; [exact H1|].
    exact (proj1 (cross_entropy_loss_same_shape [4; 2; 3]%nat (-3) "mean") H1).
  - split; [exact H2|].
    exact (proj2 (cross_entropy_loss_same_shape [4; 2; 3]%nat 3 "mean") H2).
Defined.

Lemma cross_entropy_loss_error_order_witness :
  (@loss_terms ShapeTorch [2; 3]%nat [2; 4]%nat (-1) = Raise RuntimeError ∧
   @cross_entropy_loss ShapeTorch [2; 3]%nat [2; 4]%nat (-1) "sum"
   = Raise RuntimeError) ∧
  (@loss_terms ShapeTorch [2; 3]%nat [2; 3]%nat (-1) = Ok [2%nat] ∧
   "sum" ≠ "mean" ∧
   @cross_entropy_loss ShapeTorch [2; 3]%nat [2; 3]%nat (-1) "sum"
   = Raise ValueError).
Proof.
  assert ("sum" ≠ "mean") as Hne by discriminate.
  split.
  - split; [reflexivity|].
    exact (proj1 (@cross_entropy_loss_error_order ShapeTorch
                    [2; 3]%nat [2; 4]%nat (-1) "sum") RuntimeError eq_refl).
  - split; [reflexivity|]. split; [exact Hne|].
    exact (proj1 (proj2 (@cross_entropy_loss_error_order ShapeTorch
                    [2; 3]%nat [2; 3]%nat (-1) "sum")) [2%nat] eq_refl Hne).
Defined.

(** ** adjust_learning_rate *)

Section AdjustLearningRate.
Context {V S : Type}.
Implicit Types (optimizer : Optimizer V S) (lr : V).

(** X21. After [adjust_learning_rate] the optimizer has the same number
    of parameter groups, every group has the given learning rate under
    ['lr'] and every other option as before, and the rest of the optimizer
    is untouched. *)
Theorem adjust_learning_rate_sets_lr optimizer lr :
  length (param_groups (adjust_learning_rate optimizer lr))
  = length (param_groups optimizer) ∧
  optimizer_state (adjust_learning_rate optimizer lr)
  = optimizer_state optimizer ∧
  Forall2 (λ g g', g' !! "lr" = Some lr ∧
                   ∀ k : string, k ≠ "lr" → g' !! k = g !! k)
    (param_groups optimizer)
    (param_groups (adjust_learning_rate optimizer lr)).
Proof.
  unfold adjust_learning_rate. simpl.
  split; [by rewrite length_fmap|]. split; [done|].
  apply Forall2_fmap_r, Forall_Forall2_diag, Forall_forall. intros g _.
  split; [by rewrite lookup_insert_eq|].
  intros k Hk. by rewrite lookup_insert_ne.
Qed.

(** X22. The last adjustment wins: adjusting to one rate and then to
    another leaves the optimizer as adjusting to the second alone does; in
    particular adjusting twice to the same rate is adjusting once. *)
Theorem adjust_learning_rate_last_wins optimizer lr lr' :
  adjust_learning_rate (adjust_learning_rate optimizer lr) lr'
  = adjust_learning_rate optimizer lr'.
Proof.
  unfold adjust_learning_rate. simpl. f_equal.
  rewrite <- list_fmap_compose. apply list_fmap_ext.
  intros i g _. simpl. apply insert_insert_eq.
Qed.
End AdjustLearningRate.

Example adjust_learning_rate_example :
  param_groups
    (adjust_learning_rate
       (mkOptimizer [{["lr" := 1%Z; "momentum" := 9%Z]}; {["momentum" := 5%Z]}]
          tt) 3%Z)
  = [{["lr" := 3%Z; "momentum" := 9%Z]}; {["lr" := 3%Z; "momentum" := 5%Z]}].
Proof. vm_compute. reflexivity. Qed.
